(** * web3-provider-engine: the VM and hooked-wallet subproviders

    A shallow embedding of [subproviders/vm.js] (the execution subprovider
    with its fallback stores) and of the hooked-wallet subprovider, together
    with the properties their specification states about them.

    Node-style callbacks [cb(err, value)] are rendered as sums: what a
    function hands to its callback is what the Rocq function returns.
    Everything the code reaches through a collaborator (the root provider,
    the virtual machine, the approval and signing hooks) is a parameter. *)

From Stdlib Require HexString.
From stdpp Require Import gmap strings list fin_maps pretty.

(** ** JavaScript values *)

Module Js.

(** An [Error] object; the code only ever reads [err.message]. *)
Record Error := mkError { message : string }.

(** The primitive values that travel through the JSON-RPC results read by
    the code. *)
Inductive jsval :=
| JUndefined
| JNull
| JStr (s : string).

#[global] Instance jsval_eq_dec : EqDecision jsval.
Proof. solve_decision. Defined.

#[global] Instance Error_eq_dec : EqDecision Error.
Proof. solve_decision. Defined.

(** [a === b] on these values. *)
Definition strict_eq (a b : jsval) : bool := bool_decide (a = b).

(** [a == b]: [null] and [undefined] are equal to each other and to
    nothing else; two strings are compared by content. *)
Definition loose_eq (a b : jsval) : bool :=
  match a, b with
  | JStr s, JStr s' => bool_decide (s = s')
  | JStr _, _ | _, JStr _ => false
  | _, _ => true
  end.

(** Truthiness, as tested by [if (v)], [!v] and [v || w]. *)
Definition truthy (v : jsval) : bool :=
  match v with
  | JStr s => negb (bool_decide (s = ""))
  | _ => false
  end.

Definition js_or (a b : jsval) : jsval := if truthy a then a else b.

(** A plain object used as a record of named fields; reading a field that
    was never assigned yields [undefined]. *)
Definition get_prop (o : gmap string jsval) (k : string) : jsval :=
  default JUndefined (o !! k).

(** An entry of a request's [params] array. *)
Inductive Param :=
| PVal (v : jsval)
| PObj (o : gmap string jsval).

(** The own properties of a value whose fields are about to be read or
    copied; [None] for [undefined] and [null], where reading a field
    throws.  A string owns its characters, under their indices. *)
Definition own_props (p : Param) : option (gmap string jsval) :=
  match p with
  | PObj o => Some o
  | PVal (JStr s) =>
      Some (list_to_map (imap (λ i c, (pretty i, JStr (String c ""))) (String.list_ascii_of_string s)))
  | PVal _ => None
  end.

(** A JSON-RPC request. *)
Record Payload := mkPayload {
  id : Z;
  jsonrpc : string;
  method : string;
  params : list Param;
}.

#[global] Instance Param_eq_dec : EqDecision Param.
Proof. solve_decision. Defined.

#[global] Instance Payload_eq_dec : EqDecision Payload.
Proof. solve_decision. Defined.

(** What a function passes to a node-style callback [cb(err, value)]. *)
Inductive Callback (A : Type) :=
| CbErr (err : Error)
| CbOk (value : A).
Arguments CbErr {A} err.
Arguments CbOk {A} value.

(** A JSON-RPC response: next to [id] and [jsonrpc] it carries a [result]
    or an [error]; a field that was not assigned is absent. *)
Record Response := mkResponse {
  resp_id : Z;
  resp_jsonrpc : string;
  resp_result : option jsval;
  resp_error : option Error;
}.

(** [response.result] *)
Definition result_of (r : Response) : jsval := default JUndefined (resp_result r).

End Js.
Import Js.

(** ** Plain objects used as tables

    [self.cache = {}] makes an object that has no property of its own and
    inherits those of [Object.prototype].  [self.cache[name]] reads the own
    property when there is one and goes up the prototype chain otherwise;
    [self.cache[name] = v] makes or updates an own property, unless the
    chain holds an accessor or a read-only property under that name (the
    file is not in strict mode: such an assignment is dropped without an
    error). *)

Module PlainObject.
Section Obj.

(** The primitive values other than [undefined] and [null] (strings,
    numbers, booleans), and the objects made elsewhere (the Buffers the
    virtual machine writes). *)
Context {P O : Type}.

Inductive value :=
| Undefined
| Null
| Prim (p : P)
| Obj (o : O)
| Builtin (name : string)
| ObjectPrototype.

(** [Builtin name] is the function [Object.prototype[name]], and
    [ObjectPrototype] is [Object.prototype] itself. *)
Definition Object_prototype_names : list string :=
  ["constructor"; "toString"; "toLocaleString"; "valueOf"; "hasOwnProperty";
   "isPrototypeOf"; "propertyIsEnumerable"; "__defineGetter__"; "__defineSetter__";
   "__lookupGetter__"; "__lookupSetter__"].

(** [v === undefined] *)
Definition is_undefined (v : value) : bool :=
  match v with
  | Undefined => true
  | _ => false
  end.

(** What the prototype chain holds under a name: nothing, a property that
    can be assigned through, one that cannot (a read-only property, or an
    accessor without a setter), or the [__proto__] accessor of
    [Object.prototype], which reads and sets the prototype of the object it
    is reached from. *)
Inductive Inherited :=
| Absent
| Writable (v : value)
| ReadOnly (v : value)
| ProtoAccessor.

(** What an object other than [Object.prototype] hands down under a name
    once it has been made the prototype of a table: that is the business
    of the library the object comes from. *)
Variable members : value → string → Inherited.

(** The own properties and the prototype (an object or [null]). *)
Record t := mk {
  own : gmap string value;
  proto : value;
}.

(** [{}] *)
Definition empty : t := {| own := ∅; proto := ObjectPrototype |}.

Definition inherited (o : t) (name : string) : Inherited :=
  match proto o with
  | ObjectPrototype =>
      if bool_decide (name = "__proto__") then ProtoAccessor
      else if bool_decide (name ∈ Object_prototype_names) then Writable (Builtin name)
      else Absent
  | Obj _ | Builtin _ => members (proto o) name
  | Undefined | Null | Prim _ => Absent
  end.

(** [o[name]] *)
Definition read (o : t) (name : string) : value :=
  match own o !! name with
  | Some v => v
  | None =>
      match inherited o name with
      | Absent => Undefined
      | Writable v | ReadOnly v => v
      | ProtoAccessor => proto o
      end
  end.

(** [o[name] = v].  The setter of [__proto__] replaces the prototype when
    it is given an object or [null], and does nothing when it is given
    another value. *)
Definition write (o : t) (name : string) (v : value) : t :=
  match own o !! name with
  | Some _ => {| own := <[name := v]> (own o); proto := proto o |}
  | None =>
      match inherited o name with
      | Absent | Writable _ => {| own := <[name := v]> (own o); proto := proto o |}
      | ReadOnly _ => o
      | ProtoAccessor =>
          match v with
          | Null | Obj _ | Builtin _ | ObjectPrototype => {| own := own o; proto := v |}
          | Undefined | Prim _ => o
          end
      end
  end.

End Obj.
End PlainObject.

(** ** FallbackAsyncStore

    "is an async key-value store that will let lookups fallback to the
    network. puts are not sent."  Keys are address strings, and the table
    is a plain object: a key is held when [self.cache[address]] is not
    [undefined].  The store is used by one run of the virtual machine,
    which waits for each answer before it asks again: a call is made when
    the callback of the one before has fired. *)

Module FallbackAsyncStore.
Section Store.

Context {P O : Type}.

#[local] Abbreviation value := (PlainObject.value (P := P) (O := O)).

Variable members : value → string → PlainObject.Inherited (P := P) (O := O).

(** The injected [fetchValue].  Its answer may depend on the fetches
    issued before it (the network is free to change between calls). *)
Variable fetch : list string → string → Callback value.

(** The instance: [self.cache], and the record of the calls made to
    [self.fetch] (kept for the statements, the code does not read it). *)
Record t := mk {
  cache : PlainObject.t (P := P) (O := O);
  fetched : list string;
}.

(** [new FallbackAsyncStore(fetchValue)] *)
Definition new : t := {| cache := PlainObject.empty; fetched := [] |}.

(** [FallbackAsyncStore.prototype.get] *)
Definition get (address : string) (self : t) : Callback value * t :=
  let code := PlainObject.read members (cache self) address in
  if negb (PlainObject.is_undefined code) then (CbOk code, self)
  else
    let fetched' := fetched self ++ [address] in
    match fetch (fetched self) address with
    | CbErr err => (CbErr err, {| cache := cache self; fetched := fetched' |})
    | CbOk value =>
        (CbOk value,
         {| cache := PlainObject.write members (cache self) address value;
            fetched := fetched' |})
    end.

(** [FallbackAsyncStore.prototype.set]; its callback takes no argument. *)
Definition set (address : string) (code : value) (self : t) : t :=
  {| cache := PlainObject.write members (cache self) address code;
     fetched := fetched self |}.

(** A sequence of [get] calls, each completing before the next starts;
    the result lists what every callback received. *)
Fixpoint gets (addresses : list string) (self : t) : list (string * Callback value) * t :=
  match addresses with
  | [] => ([], self)
  | a :: rest =>
      let '(r, self1) := get a self in
      let '(rs, self2) := gets rest self1 in
      ((a, r) :: rs, self2)
  end.

(** How many times [self.fetch] was called for [address]. *)
Definition fetch_count (address : string) (self : t) : nat :=
  length (filter (λ a, a = address) (fetched self)).

End Store.
End FallbackAsyncStore.


(** ** ethereumjs-util: the two string helpers the code calls *)

Module EthUtil.

Definition isHexPrefixed (str : string) : bool := String.prefix "0x" str.

Definition stripHexPrefix (str : string) : string :=
  if isHexPrefixed str then String.substring 2 (String.length str - 2) str else str.

Definition addHexPrefix (str : string) : string :=
  if isHexPrefixed str then str else "0x" +:+ str.

End EthUtil.

(** ** FallbackStorageTrie

    "is a FakeMerklePatriciaTree that will let lookups fallback to the
    network. writes shadow the network."  The inherited tree belongs to the
    package fake-merkle-patricia-tree: a table from hex keys to the buffers
    put under them, whose [get] hands over the stored buffer or
    [undefined]. *)

Module FallbackStorageTrie.
Section Trie.

Context {Buffer : Type}.

(** [buf.toString('hex')] and [new Buffer(str, 'hex')] *)
Variable toHex : Buffer → string.
Variable fromHex : string → Buffer.

(** [opts.fetchStorage], with the same reading as the store's fetch. *)
Variable fetchStorage : list string → string → Callback string.

Record t := mk {
  tree : gmap string Buffer;
  fetched : list string;
}.

(** [new FallbackStorageTrie({ fetchStorage })] *)
Definition new : t := {| tree := ∅; fetched := [] |}.

(** [FakeMerklePatriciaTree.prototype.get] and [put], as inherited. *)
Definition super_get (key : Buffer) (self : t) : Callback (option Buffer) :=
  CbOk (tree self !! toHex key).

Definition put (key value : Buffer) (self : t) : t :=
  {| tree := <[toHex key := value]> (tree self); fetched := fetched self |}.

(** [FallbackStorageTrie.prototype.get]; a buffer is an object, hence
    truthy, so [if (value)] tests that the tree had an entry. *)
Definition get (key : Buffer) (self : t) : Callback Buffer * t :=
  match super_get key self with
  | CbErr err => (CbErr err, self)
  | CbOk (Some value) => (CbOk value, self)
  | CbOk None =>
      let keyHex := toHex key in
      let self' := {| tree := tree self; fetched := fetched self ++ [keyHex] |} in
      match fetchStorage (fetched self) keyHex with
      | CbErr err => (CbErr err, self')
      | CbOk rawValue => (CbOk (fromHex (EthUtil.stripHexPrefix rawValue)), self')
      end
  end.

(** [n] calls of [get] on the same slot, one after the other. *)
Fixpoint get_times (n : nat) (key : Buffer) (self : t) : list (Callback Buffer) * t :=
  match n with
  | 0 => ([], self)
  | S n' =>
      let '(r, self1) := get key self in
      let '(rs, self2) := get_times n' key self1 in
      (r :: rs, self2)
  end.

End Trie.
End FallbackStorageTrie.

(** ** async.parallel

    The tasks of the object are all started, in the order of its keys;
    their callbacks then fire in some order of their own.  The final
    callback fires once: with the first error that arrives, or with the
    object of results when every task has answered. *)

Module Async.
Section Parallel.

Context {A : Type}.

Fixpoint join (pending : nat) (results : gmap string A)
    (completions : list (string * Callback A)) : option (Callback (gmap string A)) :=
  match pending with
  | 0 => Some (CbOk results)
  | S n =>
      match completions with
      | [] => None
      | (_, CbErr err) :: _ => Some (CbErr err)
      | (key, CbOk value) :: rest => join n (<[key := value]> results) rest
      end
  end.

(** [tasks] pairs every key with what its task will answer; [order] lists
    the keys in the order the answers arrive.  [None]: the final callback
    never fires. *)
Definition parallel (tasks : list (string * Callback A)) (order : list string)
    : option (Callback (gmap string A)) :=
  join (length tasks) ∅
       (omap (λ key, (λ r, (key, r)) <$> (list_to_map tasks : gmap string (Callback A)) !! key) order).

(** A task given together with what it sends when it is started: the
    requests sent, in the order of the keys, and the answers to join. *)
Definition started {E} (tasks : list (string * (E * Callback A))) : list E :=
  (λ task, task.2.1) <$> tasks.

Definition answers {E} (tasks : list (string * (E * Callback A))) : list (string * Callback A) :=
  (λ task, (task.1, task.2.2)) <$> tasks.

End Parallel.
End Async.


(** ** Stoplight, the readiness lock

    [util/stoplight.js] is required by [subproviders/vm.js] and is not
    among the sources.  Each operation returns the new gate and the
    continuations it lets run, in the order they run. *)

Module Stoplight.
Section Gate.

Context {K : Type}.

(** Modelled from the spec: [util/stoplight.js] is missing.  "GateState:
    boolean (ready/busy) plus a FIFO queue of pending continuations";
    "States: OPEN, CLOSED". *)
Record t := mk {
  isOpen : bool;
  queue : list K;
}.

(** Modelled from the spec: the constructor of [util/stoplight.js] is
    missing, and the specification does not say how a gate starts;
    [VmSubprovider] opens its gate as soon as it has made it. *)
Definition new : t := {| isOpen := false; queue := [] |}.

(** Modelled from the spec: [stop] of [util/stoplight.js] is missing.
    "close() (idempotent: already-closed is a no-op)". *)
Definition stop (g : t) : t := {| isOpen := false; queue := queue g |}.

(** Modelled from the spec: [go] of [util/stoplight.js] is missing.
    "open() (idempotent; releases all queued continuations in FIFO
    order)". *)
Definition go (g : t) : t * list K := ({| isOpen := true; queue := [] |}, queue g).

(** Modelled from the spec: [await] of [util/stoplight.js] is missing.
    "await(continuation) (if OPEN, schedules continuation immediately; if
    CLOSED, enqueues it)". *)
Definition await (fn : K) (g : t) : t * list K :=
  if isOpen g then (g, [fn])
  else ({| isOpen := false; queue := queue g ++ [fn] |}, []).

End Gate.
End Stoplight.


(** ** VmSubprovider *)

Module Vm.

(** *** isNormalVmError *)

Definition NOT_ENOUGH_FUNDS : string := "sender doesn't have enough funds to send tx.".
Definition WRONG_NONCE : string := "the tx doesn't have the correct nonce. account has nonce of:".
Definition VM_INTERNAL_ERRORS : list string := [NOT_ENOUGH_FUNDS; WRONG_NONCE].

(** [message.slice(0, n)] *)
Definition slice0 (n : nat) (message : string) : string := String.substring 0 n message.

Definition isNormalVmError (message : string) : bool :=
  let matchedErrors :=
    filter (λ errorPattern, slice0 (String.length errorPattern) message = errorPattern)
           VM_INTERNAL_ERRORS in
  bool_decide (length matchedErrors = 1).

(** A message that begins with one of the fixed prefixes. *)
Definition has_normal_prefix (message : string) : Prop :=
  ∃ errorPattern, errorPattern ∈ VM_INTERNAL_ERRORS ∧ String.prefix errorPattern message = true.

Section VmSubprovider.

Context {Buffer BN : Type}.

(** [buf.toString('hex')], [new Buffer(str, 'hex')], [bn.toString('hex')] *)
Variable toHex : Buffer → string.
Variable fromHex : string → Buffer.
Variable bnToHex : BN → string.

(** A field of the block data or of a transaction: a JSON value or a
    buffer. *)
Inductive field :=
| FVal (v : jsval)
| FBuf (b : Buffer).

Definition prop (o : gmap string field) (k : string) : field :=
  default (FVal JUndefined) (o !! k).

(** [f.toString('hex')]; [None] when [f] is [undefined] or [null] and the
    call throws.  On a string the argument is ignored. *)
Definition field_toString_hex (f : field) : option string :=
  match f with
  | FBuf b => Some (toHex b)
  | FVal (JStr s) => Some s
  | FVal _ => None
  end.

(** A [Block] of ethereumjs-block: its header and its other properties. *)
Record Block := mkBlock {
  header : gmap string field;
  own : gmap string field;
}.

(** [new Block()] *)
Variable emptyBlock : Block.

Definition blockFromBlockData (blockData : gmap string field) : Block :=
  let h := header emptyBlock in
  let h := <["parentHash" := prop blockData "parentHash"]> h in
  let h := <["uncleHash" := prop blockData "sha3Uncles"]> h in
  let h := <["coinbase" := prop blockData "miner"]> h in
  let h := <["stateRoot" := prop blockData "stateRoot"]> h in
  let h := <["transactionTrie" := prop blockData "transactionsRoot"]> h in
  let h := <["receiptTrie" := prop blockData "receiptRoot"]> h in
  let h := <["bloom" := prop blockData "logsBloom"]> h in
  let h := <["difficulty" := prop blockData "difficulty"]> h in
  let h := <["number" := prop blockData "number"]> h in
  let h := <["gasLimit" := prop blockData "gasLimit"]> h in
  let h := <["gasUsed" := prop blockData "gasUsed"]> h in
  let h := <["timestamp" := prop blockData "timestamp"]> h in
  let h := <["extraData" := prop blockData "extraData"]> h in
  {| header := h; own := own emptyBlock |}.

(** The transaction handed to the virtual machine. *)
Record Transaction := mkTransaction {
  to : field;
  from : Buffer;
  value : field;
  data : field;
  gasLimit : field;
  gasPrice : field;
}.

(** The fields of [payload.params[0]]; [None] when it is missing,
    [undefined] or [null], so that reading a field of it throws. *)
Definition txParams_of (payload : Payload) : option (gmap string jsval) :=
  params payload !! 0 ≫= own_props.

(** Lines 75 to 97 of [runVm]: the block, its number and the transaction.
    [None]: an exception leaves the function before [vm.runTx] is called. *)
Definition setup (blockData : gmap string field) (payload : Payload)
    : option (Transaction * Block * string) :=
  let block := blockFromBlockData blockData in
  number ← field_toString_hex (prop blockData "number");
  let blockNumber := EthUtil.addHexPrefix number in
  txParams ← txParams_of payload;
  let gas := get_prop txParams "gas" in
  sender ← match get_prop txParams "from" with
           | JStr s => Some (fromHex (EthUtil.stripHexPrefix s))
           | _ => None
           end;
  Some ({| to := FVal (get_prop txParams "to");
           from := sender;
           value := FVal (get_prop txParams "value");
           data := FVal (get_prop txParams "data");
           gasLimit := if truthy gas then FVal gas else prop (own block) "gasLimit";
           gasPrice := FVal (get_prop txParams "gasPrice") |},
        block, blockNumber).

(** What [vm.runTx] hands back on success: [results.vm.returnValue] and
    [results.gasUsed]; and the object [runVm] passes on, any of whose
    fields may be absent. *)
Record VmOutput := mkVmOutput {
  returnValue : option Buffer;
}.

Record Results := mkResults {
  error : option Error;
  vm : option VmOutput;
  gasUsed : option BN;
}.

(** Lines 109 to 117: the callback of [vm.runTx], after the gate is
    released. *)
Definition runVm_cb (res : Callback Results) : Callback Results :=
  match res with
  | CbErr err =>
      if isNormalVmError (message err)
      then CbOk {| error := Some err; vm := None; gasUsed := None |}
      else CbErr err
  | CbOk results => CbOk results
  end.

(** What becomes of a call of [sendAsync]. *)
Inductive Outcome :=
| Calls (args : Callback Response)
| Throws (what : string)
| Silent.

(** Lines 27 to 66: the callback [sendAsync] gives to [runVm]. *)
Definition sendAsync_cb (payload : Payload) (args : Callback Results) : Outcome :=
  match args with
  | CbErr err => Calls (CbErr err)
  | CbOk results =>
      let resultObj returnValue :=
        {| resp_id := id payload; resp_jsonrpc := jsonrpc payload;
           resp_result := Some returnValue; resp_error := None |} in
      if bool_decide (method payload = "eth_call") then
        match error results with
        | Some _ => Calls (CbOk (resultObj (JStr "0x")))
        | None =>
            match vm results with
            | None => Throws "TypeError"
            | Some out =>
                match returnValue out with
                | Some buf => Calls (CbOk (resultObj (JStr (EthUtil.addHexPrefix (toHex buf)))))
                | None => Calls (CbOk (resultObj JNull))
                end
            end
        end
      else if bool_decide (method payload = "eth_estimateGas") then
        match gasUsed results with
        | None => Throws "TypeError"
        | Some used => Calls (CbOk (resultObj (JStr (EthUtil.addHexPrefix (bnToHex used)))))
        end
      else Silent
  end.

(** *** The subprovider as a machine

    A call of [sendAsync] and the completion of a [vm.runTx] are the two
    things that happen to the subprovider.  The function given to
    [self._ready.await] closes over its payload only, so the gate queues
    payloads. *)

Inductive Event :=
| EvAwait (payload : Payload)
| EvStop (payload : Payload)
| EvSetupThrow (payload : Payload)
| EvRunTx (payload : Payload) (tx : Transaction) (block : Block)
| EvGo (payload : Payload)
| EvReply (payload : Payload) (args : Callback Response)
| EvReplyThrow (payload : Payload) (what : string).

Record State := mkState {
  _ready : Stoplight.t (K := Payload);
  running : list Payload;
  trace : list Event;
}.

(** [self.rootProvider.currentBlock] *)
Variable currentBlock : gmap string field.

(** [new VmSubprovider(opts)]: the gate is made and opened. *)
Definition new : State :=
  {| _ready := fst (Stoplight.go Stoplight.new); running := []; trace := [] |}.

(** The function passed to [self._ready.await], up to the call of
    [vm.runTx]. *)
Definition runVm_body (s : State) (payload : Payload) : State :=
  let ready := Stoplight.stop (_ready s) in
  match setup currentBlock payload with
  | None =>
      {| _ready := ready; running := running s;
         trace := trace s ++ [EvStop payload; EvSetupThrow payload] |}
  | Some (tx, block, _) =>
      {| _ready := ready; running := running s ++ [payload];
         trace := trace s ++ [EvStop payload; EvRunTx payload tx block] |}
  end.

(** [sendAsync(payload, cb)], that is [runVm] with the callback above. *)
Definition sendAsync (payload : Payload) (s : State) : State :=
  let '(ready, now) := Stoplight.await payload (_ready s) in
  foldl runVm_body
        {| _ready := ready; running := running s; trace := trace s ++ [EvAwait payload] |}
        now.

Fixpoint remove_one (payload : Payload) (l : list Payload) : list Payload :=
  match l with
  | [] => []
  | p :: rest => if decide (p = payload) then rest else p :: remove_one payload rest
  end.

Definition reply_events (payload : Payload) (o : Outcome) : list Event :=
  match o with
  | Calls args => [EvReply payload args]
  | Throws what => [EvReplyThrow payload what]
  | Silent => []
  end.

(** The callback of [vm.runTx] for [payload] fires with [res]: the gate is
    opened, which runs the functions it had queued, and then the result is
    classified and answered.  The machine calls back once for each
    invocation: a completion with no invocation under way changes
    nothing. *)
Definition runTx_done (payload : Payload) (res : Callback Results) (s : State) : State :=
  if bool_decide (payload ∈ running s) then
    let '(ready, released) := Stoplight.go (_ready s) in
    let s1 := foldl runVm_body
                    {| _ready := ready; running := remove_one payload (running s);
                       trace := trace s ++ [EvGo payload] |}
                    released in
    {| _ready := _ready s1; running := running s1;
       trace := trace s1 ++ reply_events payload (sendAsync_cb payload (runVm_cb res)) |}
  else s.

Inductive Input :=
| SendAsync (payload : Payload)
| RunTxDone (payload : Payload) (res : Callback Results).

Definition step (s : State) (i : Input) : State :=
  match i with
  | SendAsync payload => sendAsync payload s
  | RunTxDone payload res => runTx_done payload res s
  end.

Definition run (inputs : list Input) : State := foldl step new inputs.

(** Counters over the trace: the calls of [stop] and of [go] made on
    behalf of [payload], the set-ups that threw, and the invocations of the
    machine still under way. *)
Definition is_stop (payload : Payload) (e : Event) : bool :=
  match e with EvStop p => bool_decide (p = payload) | _ => false end.

Definition is_go (payload : Payload) (e : Event) : bool :=
  match e with EvGo p => bool_decide (p = payload) | _ => false end.

Definition is_setup_throw (payload : Payload) (e : Event) : bool :=
  match e with EvSetupThrow p => bool_decide (p = payload) | _ => false end.

Definition acquisitions (payload : Payload) (s : State) : nat :=
  length (List.filter (is_stop payload) (trace s)).

Definition releases (payload : Payload) (s : State) : nat :=
  length (List.filter (is_go payload) (trace s)).

Definition aborted (payload : Payload) (s : State) : nat :=
  length (List.filter (is_setup_throw payload) (trace s)).

Definition in_flight (payload : Payload) (s : State) : nat :=
  length (List.filter (λ p, bool_decide (p = payload)) (running s)).

(** Every acquisition of the gate is matched by one release, but for the
    invocations still under way and the set-ups that threw. *)
Definition balanced (s : State) : Prop :=
  ∀ payload,
    acquisitions payload s = releases payload s + in_flight payload s + aborted payload s.

(** *** Fetching state from the network

    [createPayload] belongs to [util/create-payload.js], which is not among
    the sources: it completes a method and its parameters into a request.
    [rootProvider_sendAsync] is the answer of [self.rootProvider], and
    [arrival] the order in which the answers to requests sent together come
    back. *)

Variable createPayload : string → list Param → Payload.
Variable rootProvider_sendAsync : Payload → Callback Response.
Variable arrival : list string → list string.

(** A request as it is handed to [createPayload], and its answer. *)
Definition _emitPayload (meth : string) (args : list Param)
    : (string * list Param) * Callback Response :=
  ((meth, args), rootProvider_sendAsync (createPayload meth args)).

(** [function(err, results){ if (err) return cb(err); cb(null, results.result) }] *)
Definition result_cb {E} (sent : E * Callback Response) : E * Callback jsval :=
  (sent.1, match sent.2 with
           | CbErr err => CbErr err
           | CbOk results => CbOk (result_of results)
           end).

Definition _fetchAccountStorage (address key blockNumber : string) :=
  result_cb (_emitPayload "eth_getStorageAt"
                          [PVal (JStr address); PVal (JStr key); PVal (JStr blockNumber)]).

Definition _fetchAccountBalance (address blockNumber : string) :=
  result_cb (_emitPayload "eth_getBalance" [PVal (JStr address); PVal (JStr blockNumber)]).

Definition _fetchAccountNonce (address blockNumber : string) :=
  result_cb (_emitPayload "eth_getTransactionCount" [PVal (JStr address); PVal (JStr blockNumber)]).

Definition _fetchAccountCode (address blockNumber : string) :=
  result_cb (_emitPayload "eth_getCode" [PVal (JStr address); PVal (JStr blockNumber)]).

(** The object given to [new Account(...)]. *)
Record Account := mkAccount {
  nonce : jsval;
  balance : jsval;
  _code : jsval;
  _exists : bool;
}.

(** [_fetchAccount]: the requests it sends, in the order it sends them, and
    what its callback receives ([None]: it is never called). *)
Definition _fetchAccount (blockNumber : string) (address : Buffer)
    : list (string * list Param) * option (Callback Account) :=
  let addressHex := EthUtil.addHexPrefix (toHex address) in
  let tasks := [("nonce", _fetchAccountNonce addressHex blockNumber);
                ("balance", _fetchAccountBalance addressHex blockNumber)] in
  (Async.started tasks,
   match Async.parallel (Async.answers tasks) (arrival tasks.*1) with
   | None => None
   | Some (CbErr err) => Some (CbErr err)
   | Some (CbOk results) =>
       Some (CbOk {| nonce := get_prop results "nonce";
                     balance := get_prop results "balance";
                     _code := get_prop results "_code";
                     _exists := negb (strict_eq (get_prop results "nonce") (JStr "0x0"))
                                || negb (loose_eq (get_prop results "balance") (JStr "0x0"))
                                || negb (loose_eq (get_prop results "_code") (JStr "0x")) |})
   end).

(** The account-state lookup as the specification words it: three
    fetches, nonce, balance and code, and an account that exists when one
    of them is not empty. *)
Definition spec_fetches (addressHex blockNumber : string) : list (string * list Param) :=
  Async.started [("nonce", _fetchAccountNonce addressHex blockNumber);
                 ("balance", _fetchAccountBalance addressHex blockNumber);
                 ("code", _fetchAccountCode addressHex blockNumber)].

Definition spec_exists (addressHex blockNumber : string) : option bool :=
  match (_fetchAccountNonce addressHex blockNumber).2,
        (_fetchAccountBalance addressHex blockNumber).2,
        (_fetchAccountCode addressHex blockNumber).2 with
  | CbOk n, CbOk b, CbOk c =>
      Some (negb (loose_eq n (JStr "0x0")) || negb (loose_eq b (JStr "0x0"))
            || negb (loose_eq c (JStr "0x")))
  | _, _, _ => None
  end.

End VmSubprovider.
End Vm.


(** ** HookedWalletSubprovider *)

Module HookedWallet.

(** What a chain of callbacks comes to: a value for the next step, an
    error for [end], an exception that escapes, or nothing when an answer
    that is waited for never comes. *)
Inductive Outcome (A : Type) :=
| Done (a : A)
| Failed (err : Error)
| Thrown (what : string)
| Pending.
Arguments Done {A} a.
Arguments Failed {A} err.
Arguments Thrown {A} what.
Arguments Pending {A}.

(** The calls made to the collaborators, in the order they are made. *)
Inductive Event :=
| EvGetAccounts
| EvApprove (txParams : option Param)
| EvEmit (meth : string) (args : list Param)
| EvSign (fullTxParams : gmap string jsval).

Definition M (A : Type) : Type := list Event * Outcome A.

Definition ret {A} (a : A) : M A := ([], Done a).

Definition bind {A B} (m : M A) (k : A → M B) : M B :=
  match m with
  | (log, Done a) => let '(log', r) := k a in (log ++ log', r)
  | (log, Failed err) => (log, Failed err)
  | (log, Thrown what) => (log, Thrown what)
  | (log, Pending) => (log, Pending)
  end.

Notation "x <- m ;; k" := (bind m (λ x, k))
  (at level 100, m at next level, right associativity).

(** A call of a collaborator that answers through a node-style callback. *)
Definition call {A} (e : Event) (answer : Callback A) : M A :=
  ([e], match answer with CbErr err => Failed err | CbOk a => Done a end).

Definition throw {A} (what : string) : M A := ([], Thrown what).
Definition fail {A} (err : Error) : M A := ([], Failed err).

(** What [end] receives as its result. *)
Inductive Result :=
| RVal (v : jsval)
| RList (l : list jsval).

(** What becomes of a call of [handleRequest]. *)
Inductive Handled :=
| Next
| End (args : Callback Result)
| Uncaught (what : string)
| NoAnswer.

Definition finish (m : M Result) : list Event * Handled :=
  match m with
  | (log, Done r) => (log, End (CbOk r))
  | (log, Failed err) => (log, End (CbErr err))
  | (log, Thrown what) => (log, Uncaught what)
  | (log, Pending) => (log, NoAnswer)
  end.

(** The options given to the constructor; an option left out is [None]. *)
Record Opts := mkOpts {
  getAccounts : option (Callback (list jsval));
  approveTransaction : option (option Param → Callback bool);
  signTransaction : option (gmap string jsval → Callback jsval);
}.

Section Subprovider.

Variable opts : Opts.

(** [emitPayload] is inherited from [Subprovider] ([./subprovider.js], not
    among the sources): it sends a request into the engine.  [arrival] is
    the order in which the answers to requests sent together come back. *)
Variable emitPayload : string → list Param → Callback Response.
Variable arrival : list string → list string.

(** [self.approveTransaction]: "default to auto-approve".  The answer
    [didApprove] is only read through [!didApprove]. *)
Definition self_approveTransaction : option Param → Callback bool :=
  default (λ _, CbOk true) (approveTransaction opts).

Definition self_getAccounts : M (list jsval) :=
  match getAccounts opts with
  | None => throw "TypeError"
  | Some answer => call EvGetAccounts answer
  end.

Definition self_signTransaction (fullTxParams : gmap string jsval) : M jsval :=
  match signTransaction opts with
  | None => throw "TypeError"
  | Some sign => call (EvSign fullTxParams) (sign fullTxParams)
  end.

(** [extend(a, b)] of the package xtend: a fresh object with the own
    properties of [a], then those of [b] written over them. *)
Definition extend (a b : gmap string jsval) : gmap string jsval := b ∪ a.

(** [self.emitPayload(payload, cb)]: the call, and its answer. *)
Definition self_emitPayload (meth : string) (args : list Param) : Event * Callback Response :=
  (EvEmit meth args, emitPayload meth args).

Definition fillInTxExtras (txData : option Param) : M (gmap string jsval) :=
  match txData ≫= own_props with
  | None => throw "TypeError"
  | Some txData =>
      let address := get_prop txData "from" in
      let tasks :=
        [("gasPrice", self_emitPayload "eth_gasPrice" []);
         ("nonce", self_emitPayload "eth_getTransactionCount"
                                    [PVal address; PVal (JStr "pending")])] in
      (Async.started tasks,
       match Async.parallel (Async.answers tasks) (arrival tasks.*1) with
       | None => Pending
       | Some (CbErr err) => Failed err
       | Some (CbOk result) =>
           match result !! "gasPrice", result !! "nonce" with
           | Some gasPrice, Some nonce =>
               Done (extend {[ "gasPrice" := result_of gasPrice;
                               "nonce" := result_of nonce;
                               "gas" := JStr "0x9000" ]} txData)
           | _, _ => Thrown "TypeError"
           end
       end)
  end.

(** The two requests of [fillInTxExtras], as the log shows them. *)
Definition autofill_requests (txData : gmap string jsval) : list Event :=
  [EvEmit "eth_gasPrice" [];
   EvEmit "eth_getTransactionCount" [PVal (get_prop txData "from"); PVal (JStr "pending")]].

Definition submitTx (rawTx : jsval) : M jsval :=
  let sent := self_emitPayload "eth_sendRawTransaction" [PVal rawTx] in
  result <- call sent.1 sent.2 ;;
  ret (result_of result).

Definition handleRequest (payload : Payload) : list Event * Handled :=
  if bool_decide (method payload = "eth_coinbase") then
    finish (accounts <- self_getAccounts ;;
            ret (RVal (js_or (default JUndefined (accounts !! 0)) JNull)))
  else if bool_decide (method payload = "eth_accounts") then
    finish (accounts <- self_getAccounts ;;
            ret (RList accounts))
  else if bool_decide (method payload = "eth_sendTransaction") then
    let txParams := params payload !! 0 in
    finish (didApprove <- call (EvApprove txParams) (self_approveTransaction txParams) ;;
            if negb didApprove then fail (mkError "User denied transaction.") else
            fullTxParams <- fillInTxExtras txParams ;;
            rawTx <- self_signTransaction fullTxParams ;;
            result <- submitTx rawTx ;;
            ret (RVal result))
  else ([], Next).

(** The step each call belongs to. *)
Inductive Stage := Approve | Autofill | Sign | Submit.

Definition stage_of (e : Event) : option Stage :=
  match e with
  | EvGetAccounts => None
  | EvApprove _ => Some Approve
  | EvEmit meth _ =>
      if bool_decide (meth = "eth_sendRawTransaction") then Some Submit else Some Autofill
  | EvSign _ => Some Sign
  end.

Definition stages (log : list Event) : list Stage := omap stage_of log.

End Subprovider.
End HookedWallet.


(** ** Concrete collaborators and requests, used to run the model *)

Module Examples.

Definition connection_reset : Error := mkError "ECONNRESET".

(** The values of a code store: primitives are strings, Buffers are
    written as their hex digits, and an object made the prototype of the
    table hands down nothing. *)
Definition code_value : Type := PlainObject.value (P := string) (O := string).

Definition no_members : code_value → string → PlainObject.Inherited (P := string) (O := string) :=
  λ _ _, PlainObject.Absent.

(** A network that refuses every fetch, one that answers every fetch with
    the same code, and one whose answers carry no result. *)
Definition fetch_refused : list string → string → Callback code_value :=
  λ _ _, CbErr connection_reset.

Definition fetch_code : list string → string → Callback code_value :=
  λ _ _, CbOk (PlainObject.Prim "0x6001").

Definition fetch_nothing : list string → string → Callback code_value :=
  λ _ _, CbOk PlainObject.Undefined.

(** Buffers written as their hex digits. *)
Definition hex_id : string → string := λ s, s.

Definition fetch_slot : list string → string → Callback string :=
  λ _ _, CbOk "0x01".

Definition trie_get : string → FallbackStorageTrie.t → Callback string * FallbackStorageTrie.t :=
  FallbackStorageTrie.get hex_id hex_id fetch_slot.

(** The execution subprovider with buffers written as hex digits, gas as a
    number, and block 10 as the current block. *)
Definition blockData : gmap string (Vm.field (Buffer := string)) :=
  {[ "number" := Vm.FBuf "0a"; "gasLimit" := Vm.FBuf "2fefd8" ]}.

Definition emptyBlock : Vm.Block (Buffer := string) := Vm.mkBlock ∅ ∅.

Definition txParams : gmap string jsval :=
  {[ "from" := JStr "0xaa"; "to" := JStr "0xbb"; "value" := JStr "0x0" ]}.

Definition call1 : Payload := mkPayload 1 "2.0" "eth_call" [PObj txParams].
Definition call2 : Payload := mkPayload 2 "2.0" "eth_call" [PObj txParams].
Definition call3 : Payload := mkPayload 3 "2.0" "eth_call" [PObj txParams].
Definition estimate1 : Payload := mkPayload 4 "2.0" "eth_estimateGas" [PObj txParams].

Definition wrong_nonce : Error :=
  mkError "the tx doesn't have the correct nonce. account has nonce of: 5 tx has nonce of: 0".

Definition vm_ok : Callback (Vm.Results (Buffer := string) (BN := N)) :=
  CbOk (Vm.mkResults None (Some (Vm.mkVmOutput None)) (Some 21000%N)).

(** [bn.toString('hex')] *)
Definition bn_hex (n : N) : string := EthUtil.stripHexPrefix (HexString.of_N n).

Definition vm_run (inputs : list Vm.Input) : Vm.State :=
  Vm.run hex_id hex_id bn_hex emptyBlock blockData inputs.

(** The transaction and the block made for the requests above. *)
Definition tx : Vm.Transaction :=
  {| Vm.to := Vm.FVal (JStr "0xbb"); Vm.from := "aa"; Vm.value := Vm.FVal (JStr "0x0");
     Vm.data := Vm.FVal JUndefined; Vm.gasLimit := Vm.FVal JUndefined;
     Vm.gasPrice := Vm.FVal JUndefined |}.

Definition block : Vm.Block := Vm.blockFromBlockData emptyBlock blockData.

(** A network on which the account asked for has never been used. *)
Definition createPayload (meth : string) (args : list Param) : Payload :=
  mkPayload 0 "2.0" meth args.

Definition empty_account_network (payload : Payload) : Callback Response :=
  let answer v := CbOk (mkResponse (id payload) (jsonrpc payload) (Some (JStr v)) None) in
  if bool_decide (method payload = "eth_getCode") then answer "0x" else answer "0x0".

Definition in_order : list string → list string := λ keys, keys.

(** The wallet: a user who refuses, and one who lets the default approve;
    a network whose fee price is 4 and on which the sender has 7 pending
    transactions. *)
Definition signed : jsval := JStr "0xf86b07048290009400bb80801ba0".

Definition opts_refuse : HookedWallet.Opts :=
  HookedWallet.mkOpts None (Some (λ _, CbOk false)) (Some (λ _, CbOk signed)).

Definition opts_default : HookedWallet.Opts :=
  HookedWallet.mkOpts None None (Some (λ _, CbOk signed)).

Definition wallet_network (meth : string) (args : list Param) : Callback Response :=
  let answer v := CbOk (mkResponse 0 "2.0" (Some (JStr v)) None) in
  if bool_decide (meth = "eth_gasPrice") then answer "0x4"
  else if bool_decide (meth = "eth_getTransactionCount") then answer "0x7"
  else answer "0x9fc76417374aa880d4449a1f7f31ec597f00b1f6f3dd2d66f4c9c6c445836d8b".

Definition sendTransaction1 : Payload :=
  mkPayload 5 "2.0" "eth_sendTransaction" [PObj txParams].

Definition fullTxParams : gmap string jsval :=
  {[ "from" := JStr "0xaa"; "to" := JStr "0xbb"; "value" := JStr "0x0";
     "gasPrice" := JStr "0x4"; "nonce" := JStr "0x7"; "gas" := JStr "0x9000" ]}.

End Examples.

(** ** Observations on runs, used to state what the code keeps *)

Module StoreObs.
Section Obs.

Context {P O : Type}.

(** The cache object has the prototype it was made with. *)
Definition plain (self : FallbackAsyncStore.t (P := P) (O := O)) : Prop :=
  PlainObject.proto (FallbackAsyncStore.cache self) = PlainObject.ObjectPrototype.

(** The table after an assignment that made or updated an own property. *)
Definition landed (o : PlainObject.t (P := P) (O := O)) (name : string)
    (v : PlainObject.value (P := P) (O := O)) : PlainObject.t :=
  PlainObject.mk (<[name := v]> (PlainObject.own o)) (PlainObject.proto o).

(** Whether a [get] left nothing to find for the next one: it handed an
    error, or [undefined], to its callback. *)
Definition is_fruitless (r : Callback (PlainObject.value (P := P) (O := O))) : bool :=
  match r with
  | CbErr _ | CbOk PlainObject.Undefined => true
  | CbOk _ => false
  end.

Definition fruitless (address : string)
    (replies : list (string * Callback (PlainObject.value (P := P) (O := O)))) : nat :=
  length (List.filter (λ reply, is_fruitless reply.2 && bool_decide (reply.1 = address)) replies).

End Obs.
End StoreObs.

Module TrieObs.
Section Obs.

Context {Buffer : Type}.
Variable toHex : Buffer → string.
Variable fromHex : string → Buffer.
Variable fetchStorage : list string → string → Callback string.

(** A sequence of [get] calls on the trie, each completing before the
    next starts. *)
Fixpoint gets (keys : list Buffer) (self : FallbackStorageTrie.t)
    : list (Callback Buffer) * FallbackStorageTrie.t :=
  match keys with
  | [] => ([], self)
  | key :: rest =>
      let '(r, self1) := FallbackStorageTrie.get toHex fromHex fetchStorage key self in
      let '(rs, self2) := gets rest self1 in
      (r :: rs, self2)
  end.

End Obs.
End TrieObs.

Module VmObs.

(** [self.methods], as the constructor sets it. *)
Definition methods : list string := ["eth_call"; "eth_estimateGas"].

Section Obs.

Context {Buffer : Type}.

(** The payloads handed to [self._ready.await], and those whose function
    has run past the gate, in the order it happened. *)
Definition awaited (s : Vm.State (Buffer := Buffer)) : list Payload :=
  omap (λ e, match e with Vm.EvAwait p => Some p | _ => None end) (Vm.trace s).

Definition stopped (s : Vm.State (Buffer := Buffer)) : list Payload :=
  omap (λ e, match e with Vm.EvStop p => Some p | _ => None end) (Vm.trace s).

(** The requests that ran past the gate, followed by those that wait on
    it, are the requests in the order they came; none waits on an open
    gate. *)
Definition in_arrival_order (s : Vm.State (Buffer := Buffer)) : Prop :=
  stopped s ++ Stoplight.queue (Vm._ready s) = awaited s
  ∧ (Stoplight.isOpen (Vm._ready s) = true → Stoplight.queue (Vm._ready s) = []).

(** Whether an event shows the virtual machine being invoked or a request
    being answered. *)
Definition is_progress (e : Vm.Event (Buffer := Buffer)) : bool :=
  match e with
  | Vm.EvRunTx _ _ _ | Vm.EvReply _ _ | Vm.EvReplyThrow _ _ | Vm.EvGo _ => true
  | _ => false
  end.

End Obs.
End VmObs.

(** ** More concrete requests and collaborators *)

Module MoreExamples.
Import Examples.

(** A request that carries no parameters, and one of a method the
    execution subprovider does not serve. *)
Definition bare_call : Payload := mkPayload 6 "2.0" "eth_call" [].
Definition balance1 : Payload := mkPayload 7 "2.0" "eth_getBalance" [PVal (JStr "0xaa")].

Definition call_response : Response :=
  {| resp_id := 1; resp_jsonrpc := "2.0"; resp_result := Some JNull; resp_error := None |}.

(** A network that answers the pending count and fails on the fee
    price. *)
Definition no_fee_network (meth : string) (args : list Param) : Callback Response :=
  if bool_decide (meth = "eth_gasPrice") then CbErr connection_reset
  else CbOk (mkResponse 0 "2.0" (Some (JStr "0x7")) None).

(** A network on which the account has a balance, and one that fails. *)
Definition funded_network (payload : Payload) : Callback Response :=
  let answer v := CbOk (mkResponse (id payload) (jsonrpc payload) (Some (JStr v)) None) in
  if bool_decide (method payload = "eth_getBalance") then answer "0x2710" else answer "0x1".

Definition down_network (payload : Payload) : Callback Response := CbErr connection_reset.

(** A wallet that holds two accounts, and one whose signer was left out. *)
Definition opts_accounts : HookedWallet.Opts :=
  HookedWallet.mkOpts (Some (CbOk [JStr "0xaa"; JStr "0xcc"])) None (Some (λ _, CbOk signed)).

Definition opts_no_signer : HookedWallet.Opts := HookedWallet.mkOpts None None None.

Definition coinbase1 : Payload := mkPayload 8 "2.0" "eth_coinbase" [].

Definition sendTransaction_full : Payload :=
  mkPayload 9 "2.0" "eth_sendTransaction" [PObj fullTxParams].

End MoreExamples.

(** * Properties *)

(** ** FallbackAsyncStore *)

Module StoreProps.
Import FallbackAsyncStore StoreObs.

#[local] Arguments fetch_count : simpl never.

Section Facts.

Context {P O : Type}.

#[local] Abbreviation value := (PlainObject.value (P := P) (O := O)).
#[local] Abbreviation Undefined := (PlainObject.Undefined (P := P) (O := O)).

Variable members : value → string → PlainObject.Inherited (P := P) (O := O).
Variable fetch : list string → string → Callback value.

#[local] Abbreviation read := (PlainObject.read members).
#[local] Abbreviation write := (PlainObject.write members).
#[local] Abbreviation get := (get members fetch).
#[local] Abbreviation set := (set members).
#[local] Abbreviation gets := (gets members fetch).

(** *** Reading and assigning *)

Lemma is_undefined_false (v : value) : v ≠ Undefined → PlainObject.is_undefined v = false.
Proof. by destruct v. Qed.

Lemma is_undefined_true (v : value) : PlainObject.is_undefined v = true → v = Undefined.
Proof. by destruct v. Qed.

Lemma read_landed (o : PlainObject.t) (name k : string) (v : value) :
  read (landed o name v) k = if decide (k = name) then v else read o k.
Proof.
  unfold PlainObject.read, PlainObject.inherited, landed. cbn [PlainObject.own PlainObject.proto].
  destruct (decide (k = name)) as [->|Hne].
  - by rewrite lookup_insert_eq.
  - by rewrite lookup_insert_ne.
Qed.

(** Under the prototype the table was made with, every assignment makes an
    own property, but one to a [__proto__] that is not an own property. *)
Lemma write_lands (o : PlainObject.t) (name : string) (v : value) :
  PlainObject.proto o = PlainObject.ObjectPrototype →
  name ≠ "__proto__" ∨ is_Some (PlainObject.own o !! name) →
  write o name v = landed o name v.
Proof.
  intros Hproto Hname. unfold PlainObject.write, PlainObject.inherited, landed.
  destruct (PlainObject.own o !! name) as [w|] eqn:Hown; [done|].
  destruct Hname as [Hne|[w Hw]]; [|done].
  rewrite Hproto, bool_decide_false by done. by case_bool_decide.
Qed.

(** A name under which nothing is read is neither [__proto__] nor a name
    of [Object.prototype], unless an own property hides it. *)
Lemma miss_lands (o : PlainObject.t) (name : string) (v : value) :
  PlainObject.proto o = PlainObject.ObjectPrototype →
  read o name = Undefined →
  write o name v = landed o name v.
Proof.
  intros Hproto Hread. apply write_lands; [done|].
  destruct (PlainObject.own o !! name) as [w|] eqn:Hown; [right; eauto|left].
  intros ->. revert Hread. unfold PlainObject.read, PlainObject.inherited.
  rewrite Hown, Hproto. by cbn.
Qed.

Lemma fetch_count_snoc (k a : string) (cache : PlainObject.t (P := P) (O := O))
    (log : list string) :
  fetch_count k (mk cache (log ++ [a]))
  = fetch_count k (mk cache log) + (if decide (a = k) then 1 else 0).
Proof.
  unfold fetch_count; cbn [fetched].
  rewrite filter_app, length_app. f_equal.
  destruct (decide (a = k)) as [->|Hne].
  - by rewrite filter_cons_True.
  - by rewrite filter_cons_False.
Qed.

(** *** One [get] *)

Lemma get_hit (address : string) (code : value) (self : t) :
  read (cache self) address = code → code ≠ Undefined →
  get address self = (CbOk code, self).
Proof.
  intros H Hdef. unfold FallbackAsyncStore.get. cbn zeta.
  by rewrite H, (is_undefined_false _ Hdef).
Qed.

Lemma get_miss (address : string) (self : t) :
  plain self →
  read (cache self) address = Undefined →
  get address self
  = match fetch (fetched self) address with
    | CbErr err => (CbErr err, mk (cache self) (fetched self ++ [address]))
    | CbOk value => (CbOk value, mk (landed (cache self) address value) (fetched self ++ [address]))
    end.
Proof.
  intros Hplain H. unfold FallbackAsyncStore.get. cbn zeta. rewrite H. cbn [PlainObject.is_undefined negb].
  destruct (fetch _ _) as [err|value]; [done|]. by rewrite miss_lands.
Qed.

(** What a [get] of [a] does to the reading of [k]. *)
Lemma get_step (k a : string) (self : t) :
  plain self →
  ∃ r1 self1,
    get a self = (r1, self1)
    ∧ plain self1
    ∧ (a ≠ k → read (cache self1) k = read (cache self) k
               ∧ fetch_count k self1 = fetch_count k self)
    ∧ (read (cache self) a ≠ Undefined →
         r1 = CbOk (read (cache self) a) ∧ self1 = self).
Proof.
  intros Hplain.
  destruct (PlainObject.is_undefined (read (cache self) a)) eqn:Hu.
  - apply is_undefined_true in Hu. rewrite (get_miss _ _ Hplain Hu).
    destruct self as [c log]; cbn [cache fetched] in *.
    destruct (fetch log a) as [err|w]; eexists _, _; (split; [reflexivity|]);
      (split; [done|]); (split; [|done]); intros Hne; cbn [cache];
      rewrite ?read_landed, ?decide_False by done;
      rewrite fetch_count_snoc, decide_False by done; split; done || lia.
  - exists (CbOk (read (cache self) a)), self.
    assert (read (cache self) a ≠ Undefined) as Hdef by (intros H; by rewrite H in Hu).
    rewrite (get_hit _ _ _ eq_refl Hdef). split_and!; done.
Qed.

(** *** Sequences of [get]s *)

(** A key that holds a value keeps it through every later [get], which
    neither fetches it again nor answers anything else for it. *)
Lemma gets_cached (k : string) (v : value) (addresses : list string) :
  v ≠ Undefined →
  ∀ self, plain self → read (cache self) k = v →
    plain (gets addresses self).2
    ∧ read (cache (gets addresses self).2) k = v
    ∧ fetch_count k (gets addresses self).2 = fetch_count k self
    ∧ ∀ r, (k, r) ∈ (gets addresses self).1 → r = CbOk v.
Proof.
  intros Hdef. induction addresses as [|a rest IH]; intros self Hplain Hk.
  - cbn. split_and!; [done..|]. intros r Hr. by apply elem_of_nil in Hr.
  - cbn [FallbackAsyncStore.gets].
    destruct (get_step k a self Hplain) as (r1 & self1 & Hget & Hplain1 & Hother & Hhit).
    assert (read (cache self1) k = v ∧ fetch_count k self1 = fetch_count k self
            ∧ (a = k → r1 = CbOk v)) as (Hk1 & Hc1 & Hr1).
    { destruct (decide (a = k)) as [->|Hne].
      - destruct Hhit as [-> ->]; [by rewrite Hk|]. by rewrite Hk.
      - destruct (Hother Hne) as [-> ->]. done. }
    rewrite Hget. destruct (IH self1 Hplain1 Hk1) as (IH0 & IH1 & IH2 & IH3).
    destruct (FallbackAsyncStore.gets _ _ rest self1) as [rs self2]; cbn [fst snd] in *.
    split_and!; [done|done|congruence|].
    intros r [Heq|Hin]%elem_of_cons; [|by apply IH3].
    injection Heq as -> ->. by apply Hr1.
Qed.

(** From a store that holds nothing for [k], when fetching [k] yields a
    value. *)
Lemma gets_uncached (k : string) (addresses : list string) :
  (∀ log, ∃ v, fetch log k = CbOk v ∧ v ≠ Undefined) →
  ∀ self, plain self → read (cache self) k = Undefined →
    fetch_count k (gets addresses self).2 ≤ S (fetch_count k self)
    ∧ ∃ v, ∀ r, (k, r) ∈ (gets addresses self).1 → r = CbOk v.
Proof.
  intros Hfetch. induction addresses as [|a rest IH]; intros self Hplain Hk.
  - cbn. split; [lia|]. exists Undefined.
    intros r Hr. by apply elem_of_nil in Hr.
  - cbn [FallbackAsyncStore.gets]. destruct (decide (a = k)) as [->|Hne].
    + rewrite (get_miss _ _ Hplain Hk). destruct (Hfetch (fetched self)) as (v & -> & Hdef).
      set (self1 := mk _ _).
      destruct (gets_cached k v rest Hdef self1) as (_ & _ & Hc & Hr).
      { exact Hplain. }
      { unfold self1. cbn [cache]. by rewrite read_landed, decide_True. }
      destruct (FallbackAsyncStore.gets _ _ rest self1) as [rs self2]; cbn [fst snd] in *.
      split.
      * rewrite Hc. unfold self1. destruct self as [c log]; cbn [cache fetched].
        rewrite fetch_count_snoc, decide_True by done.
        unfold fetch_count; cbn [fetched]. lia.
      * exists v. intros r [Heq|Hin]%elem_of_cons; [congruence|by apply Hr].
    + destruct (get_step k a self Hplain) as (r1 & self1 & Hget & Hplain1 & Hother & _).
      destruct (Hother Hne) as [Hk1 Hc1]. rewrite Hk in Hk1.
      rewrite Hget. destruct (IH self1 Hplain1 Hk1) as (IH1 & v & IH2).
      destruct (FallbackAsyncStore.gets _ _ rest self1) as [rs self2]; cbn [fst snd] in *.
      split; [lia|]. exists v.
      intros r [Heq|Hin]%elem_of_cons; [congruence|by apply IH2].
Qed.

(** A new store is plain, and stays so under every [get] and under every
    [set] of a key other than [__proto__]. *)
Lemma new_plain : plain (new (P := P) (O := O)).
Proof. reflexivity. Qed.

Lemma get_plain (address : string) (self : t) : plain self → plain (get address self).2.
Proof.
  intros Hplain. destruct (get_step address address self Hplain) as (r1 & self1 & -> & H & _).
  exact H.
Qed.

Lemma set_lands (k : string) (v : value) (self : t) :
  k ≠ "__proto__" → plain self →
  set k v self = mk (landed (cache self) k v) (fetched self).
Proof.
  intros Hk Hplain. unfold FallbackAsyncStore.set. rewrite write_lands; auto.
Qed.

Lemma set_plain (k : string) (v : value) (self : t) :
  k ≠ "__proto__" → plain self → plain (set k v self).
Proof. intros Hk Hplain. by rewrite set_lands. Qed.

(** C4, as amended. For every key other than [__proto__] and every value
    other than [undefined], on a store whose cache object has the
    prototype it was made with, a [get] performed after a [set] of that key
    returns the set value without invoking the injected fetch, whatever the
    fetch would answer: at once, and after any later [get]s, of this key or
    of others, whose network fetches never evict or shadow the value
    written locally. *)
Theorem get_after_set (k : string) (v : value) (self : t) (later : list string) :
  k ≠ "__proto__" →
  v ≠ Undefined →
  plain self →
  let written := set k v self in
  let after := (gets later written).2 in
  get k written = (CbOk v, written)
  ∧ read (cache after) k = v
  ∧ get k after = (CbOk v, after)
  ∧ fetch_count k after = fetch_count k self
  ∧ ∀ r, (k, r) ∈ (gets later written).1 → r = CbOk v.
Proof.
  intros Hk Hdef Hplain written after.
  assert (plain written) as Hplainw by by apply set_plain.
  assert (read (cache written) k = v) as Hw.
  { unfold written. rewrite set_lands by done. cbn [cache].
    by rewrite read_landed, decide_True. }
  destruct (gets_cached k v later Hdef written Hplainw Hw) as (_ & Hc & Hn & Hr).
  split_and!; [by apply get_hit|done|by apply get_hit| |done].
  unfold after. rewrite Hn. unfold written. by rewrite set_lands.
Qed.

(** C3, as amended. For every key never written locally whose fetch
    succeeds with a value other than [undefined], at most one invocation of
    the injected fetch occurs for that key over any sequence of [get] calls
    on a new store, and every [get] of the key hands over the same value: a
    [get] that finds nothing under the key invokes the fetch and caches the
    result, and a [get] that finds a value returns it without invoking the
    fetch. *)
Theorem get_fetches_once (k : string) (addresses : list string) :
  (∀ log, ∃ v, fetch log k = CbOk v ∧ v ≠ Undefined) →
  fetch_count k (gets addresses new).2 ≤ 1
  ∧ (∃ v, ∀ r, (k, r) ∈ (gets addresses new).1 → r = CbOk v)
  ∧ (∀ self, plain self → read (cache self) k = Undefined →
       ∃ v, fetch (fetched self) k = CbOk v
            ∧ get k self = (CbOk v, mk (landed (cache self) k v) (fetched self ++ [k]))
            ∧ read (landed (cache self) k v) k = v)
  ∧ (∀ self v, read (cache self) k = v → v ≠ Undefined → get k self = (CbOk v, self)).
Proof.
  intros Hfetch.
  assert (fetch_count k (gets addresses new).2 ≤ 1
          ∧ ∃ v, ∀ r, (k, r) ∈ (gets addresses new).1 → r = CbOk v) as [Hn Hr].
  { destruct (PlainObject.is_undefined (read (cache new) k)) eqn:Hu.
    - apply is_undefined_true in Hu. exact (gets_uncached k addresses Hfetch new new_plain Hu).
    - assert (read (cache new) k ≠ Undefined) as Hdef by (intros H; by rewrite H in Hu).
      destruct (gets_cached k _ addresses Hdef new new_plain eq_refl) as (_ & _ & Hc & Hr).
      split; [rewrite Hc; unfold fetch_count; cbn; lia|eauto]. }
  split_and!; [done|done| |].
  - intros self Hplain Hk. destruct (Hfetch (fetched self)) as (v & Hv & _). exists v.
    split_and!; [done| |by rewrite read_landed, decide_True].
    by rewrite (get_miss _ _ Hplain Hk), Hv.
  - intros self v. apply get_hit.
Qed.

End Facts.

Import Examples.

(** C3, as stated, fails when the fetch fails: nothing is cached, and the
    next [get] of the key fetches again. *)
Lemma get_refetches_after_failure :
  ¬ (∀ (fetch : list string → string → Callback code_value) (k : string)
       (addresses : list string),
       fetch_count k (gets no_members fetch addresses new).2 ≤ 1).
Proof.
  intros H.
  specialize (H fetch_refused "0xaa" ["0xaa"; "0xaa"]).
  vm_compute in H. lia.
Qed.

(** It fails as well when the fetch succeeds with [undefined], which is
    what [_fetchAccountCode] hands over for an answer without a result:
    the assignment leaves the key as good as absent. *)
Lemma get_refetches_undefined :
  fetch_count "0xaa" (gets no_members fetch_nothing ["0xaa"; "0xaa"] new).2 = 2.
Proof. vm_compute. reflexivity. Qed.

(** A key that names a member of [Object.prototype] is found in a new
    store, and is never fetched. *)
Lemma inherited_name_is_a_hit :
  get no_members fetch_code "propertyIsEnumerable" new
  = (CbOk (PlainObject.Builtin "propertyIsEnumerable"), new)
  ∧ get no_members fetch_code "__proto__" new = (CbOk PlainObject.ObjectPrototype, new).
Proof. split; vm_compute; reflexivity. Qed.

Lemma get_fetches_once_witness :
  fetch_count "0xaa" (gets no_members fetch_code ["0xaa"; "0xbb"; "0xaa"] new).2 ≤ 1.
Proof.
  apply (get_fetches_once no_members fetch_code "0xaa" ["0xaa"; "0xbb"; "0xaa"]).
  intros log. eexists. split; [reflexivity|discriminate].
Defined.

(** C4, as stated, fails for the value [undefined]: the [get] that follows
    finds nothing, invokes the fetch and hands over what the network
    answers. *)
Lemma set_undefined_is_fetched :
  ¬ (∀ (fetch : list string → string → Callback code_value) (k : string)
       (v : code_value) (self : t),
       get no_members fetch k (set no_members k v self)
       = (CbOk v, set no_members k v self)).
Proof.
  intros H.
  specialize (H fetch_code "0xaa" PlainObject.Undefined new).
  vm_compute in H. discriminate H.
Qed.

(** It fails as well for the key [__proto__]: the assignment of a primitive
    value is dropped, and the [get] hands over [Object.prototype]. *)
Lemma set_proto_is_dropped :
  set no_members "__proto__" (PlainObject.Prim "0x6002") new = new
  ∧ get no_members fetch_code "__proto__" (set no_members "__proto__" (PlainObject.Prim "0x6002") new)
    = (CbOk PlainObject.ObjectPrototype, new).
Proof. split; vm_compute; reflexivity. Qed.

Lemma get_after_set_witness :
  get no_members fetch_code "0xaa" (set no_members "0xaa" (PlainObject.Prim "0x6002") new)
  = (CbOk (PlainObject.Prim "0x6002"), set no_members "0xaa" (PlainObject.Prim "0x6002") new).
Proof.
  destruct (get_after_set no_members fetch_code "0xaa" (PlainObject.Prim "0x6002") new ["0xbb"])
    as [H _]; [discriminate|discriminate|reflexivity|].
  exact H.
Defined.

End StoreProps.

(** ** FallbackStorageTrie *)

Module TrieProps.
Import FallbackStorageTrie.

Section Facts.

Context {Buffer : Type}.
Variable toHex : Buffer → string.
Variable fromHex : string → Buffer.
Variable fetchStorage : list string → string → Callback string.

#[local] Abbreviation get := (get toHex fromHex fetchStorage).
#[local] Abbreviation get_times := (get_times toHex fromHex fetchStorage).

Lemma get_local (key value : Buffer) (self : t) :
  tree self !! toHex key = Some value → get key self = (CbOk value, self).
Proof. intros H. unfold FallbackStorageTrie.get, super_get. by rewrite H. Qed.

Lemma get_remote (key : Buffer) (self : t) :
  tree self !! toHex key = None →
  get key self
  = (match fetchStorage (fetched self) (toHex key) with
     | CbErr err => CbErr err
     | CbOk rawValue => CbOk (fromHex (EthUtil.stripHexPrefix rawValue))
     end,
     mk (tree self) (fetched self ++ [toHex key])).
Proof.
  intros H. unfold FallbackStorageTrie.get, super_get. rewrite H.
  by destruct (fetchStorage _ _).
Qed.

(** C5, as amended. A slot written locally is served from the trie without
    a fetch.  On a local miss [get] invokes the injected storage fetch and
    returns the fetched value, decoded from hex, but leaves the trie as it
    was: every [get] of a never-written slot fetches again. *)
Theorem get_falls_back_each_time (key : Buffer) (self : t) (n : nat) :
  tree self !! toHex key = None →
  get key self
  = (match fetchStorage (fetched self) (toHex key) with
     | CbErr err => CbErr err
     | CbOk rawValue => CbOk (fromHex (EthUtil.stripHexPrefix rawValue))
     end,
     mk (tree self) (fetched self ++ [toHex key]))
  ∧ (get_times n key self).2 = mk (tree self) (fetched self ++ replicate n (toHex key))
  ∧ ∀ value, get key (put toHex key value self) = (CbOk value, put toHex key value self).
Proof.
  intros Hmiss. split_and!.
  - by apply get_remote.
  - revert self Hmiss. induction n as [|n IH]; intros self Hmiss.
    + cbn. destruct self. by rewrite app_nil_r.
    + cbn [FallbackStorageTrie.get_times]. rewrite (get_remote _ _ Hmiss).
      specialize (IH (mk (tree self) (fetched self ++ [toHex key])) Hmiss).
      destruct (get_times n key _) as [rs self2]. cbn in *.
      rewrite IH. cbn. by rewrite <-app_assoc.
  - intros value. apply get_local. apply lookup_insert_eq.
Qed.

End Facts.

(** C5, as stated, fails: after a [get] that fell back to the network the
    trie still has no entry for the slot, and a second [get] of it fetches
    again. *)
Lemma get_does_not_cache :
  ¬ (tree (Examples.trie_get "00" new).2 !! "00" = Some "01"
     ∧ fetched (Examples.trie_get "00" (Examples.trie_get "00" new).2).2
       = fetched (Examples.trie_get "00" new).2).
Proof. vm_compute. intros [H _]. discriminate H. Qed.

Lemma get_falls_back_each_time_witness :
  (get_times Examples.hex_id Examples.hex_id Examples.fetch_slot 2 "00" new).2
  = mk ∅ ["00"; "00"].
Proof.
  apply (get_falls_back_each_time Examples.hex_id Examples.hex_id Examples.fetch_slot
           "00" new 2).
  reflexivity.
Defined.

End TrieProps.

(** ** VmSubprovider *)

Module VmProps.
Import Vm VmObs.

Lemma patterns_exclusive (message : string) :
  slice0 (String.length NOT_ENOUGH_FUNDS) message = NOT_ENOUGH_FUNDS →
  slice0 (String.length WRONG_NONCE) message = WRONG_NONCE →
  False.
Proof.
  destruct message as [|c rest]; cbn; intros H1 H2; [discriminate|].
  injection H1 as -> _. discriminate H2.
Qed.

(** [isNormalVmError] accepts exactly the messages that begin with one of
    the two prefixes: no message begins with both. *)
Lemma isNormalVmError_prefix (message : string) :
  isNormalVmError message = true ↔ has_normal_prefix message.
Proof.
  unfold isNormalVmError, has_normal_prefix, VM_INTERNAL_ERRORS.
  pose proof (patterns_exclusive message) as Hex.
  pose proof (String.prefix_correct NOT_ENOUGH_FUNDS message) as H1.
  pose proof (String.prefix_correct WRONG_NONCE message) as H2.
  unfold slice0 in *.
  destruct (decide (String.substring 0 (String.length NOT_ENOUGH_FUNDS) message = NOT_ENOUGH_FUNDS))
    as [Ha|Ha];
  destruct (decide (String.substring 0 (String.length WRONG_NONCE) message = WRONG_NONCE))
    as [Hb|Hb].
  - by destruct Hex.
  - rewrite filter_cons_True, filter_cons_False, filter_nil by done.
    split; [|done]. intros _. exists NOT_ENOUGH_FUNDS.
    split; [apply elem_of_cons; by left|by apply H1].
  - rewrite filter_cons_False, filter_cons_True, filter_nil by done.
    split; [|done]. intros _. exists WRONG_NONCE.
    split; [apply elem_of_cons; right; apply elem_of_cons; by left|by apply H2].
  - rewrite !filter_cons_False, filter_nil by done.
    split; [done|]. intros (p & Hp & Hpre).
    apply elem_of_cons in Hp as [->|Hp]; [apply H1 in Hpre; contradiction|].
    apply elem_of_cons in Hp as [->|Hp]; [apply H2 in Hpre; contradiction|].
    by apply elem_of_nil in Hp.
Qed.

Section Facts.

Context {Buffer BN : Type}.
Variable toHex : Buffer → string.
Variable fromHex : string → Buffer.
Variable bnToHex : BN → string.
Variable emptyBlock : Block (Buffer := Buffer).
Variable currentBlock : gmap string (field (Buffer := Buffer)).

#[local] Abbreviation State := (State (Buffer := Buffer)).
#[local] Abbreviation Results := (Results (Buffer := Buffer) (BN := BN)).
#[local] Abbreviation runVm_body := (runVm_body toHex fromHex emptyBlock currentBlock).
#[local] Abbreviation sendAsync := (sendAsync toHex fromHex emptyBlock currentBlock).
#[local] Abbreviation runTx_done := (runTx_done toHex fromHex bnToHex emptyBlock currentBlock).
#[local] Abbreviation step := (step toHex fromHex bnToHex emptyBlock currentBlock).
#[local] Abbreviation run := (run toHex fromHex bnToHex emptyBlock currentBlock).
#[local] Abbreviation sendAsync_cb := (sendAsync_cb toHex bnToHex).

(** *** The steps of the machine *)

Lemma sendAsync_open (payload : Payload) (s : State) :
  Stoplight.isOpen (_ready s) = true →
  sendAsync payload s
  = runVm_body {| _ready := _ready s; running := running s;
                  trace := trace s ++ [EvAwait payload] |} payload.
Proof. intros H. unfold Vm.sendAsync, Stoplight.await. by rewrite H. Qed.

Lemma sendAsync_closed (payload : Payload) (s : State) :
  Stoplight.isOpen (_ready s) = false →
  sendAsync payload s
  = {| _ready := {| Stoplight.isOpen := false;
                    Stoplight.queue := Stoplight.queue (_ready s) ++ [payload] |};
       running := running s;
       trace := trace s ++ [EvAwait payload] |}.
Proof. intros H. unfold Vm.sendAsync, Stoplight.await. by rewrite H. Qed.

Lemma runVm_body_runs (payload : Payload) (s : State) tx block blockNumber :
  setup toHex fromHex emptyBlock currentBlock payload = Some (tx, block, blockNumber) →
  runVm_body s payload
  = {| _ready := Stoplight.stop (_ready s); running := running s ++ [payload];
       trace := trace s ++ [EvStop payload; EvRunTx payload tx block] |}.
Proof. intros H. unfold Vm.runVm_body. by rewrite H. Qed.

Lemma runTx_done_running (payload : Payload) (res : Callback Results) (s : State) :
  payload ∈ running s →
  runTx_done payload res s
  = let s1 := foldl runVm_body
                    {| _ready := (Stoplight.go (_ready s)).1;
                       running := remove_one payload (running s);
                       trace := trace s ++ [EvGo payload] |}
                    (Stoplight.go (_ready s)).2 in
    {| _ready := _ready s1; running := running s1;
       trace := trace s1 ++ reply_events payload (sendAsync_cb payload (runVm_cb res)) |}.
Proof. intros H. unfold Vm.runTx_done. by rewrite bool_decide_true. Qed.

(** *** Classification of the outcome *)

Lemma runVm_cb_normal (err : Error) :
  has_normal_prefix (message err) →
  runVm_cb (CbErr err) = CbOk ({| error := Some err; vm := None; gasUsed := None |} : Results).
Proof.
  intros H%isNormalVmError_prefix. unfold runVm_cb. by rewrite H.
Qed.

(** C1, as amended. For every payload whose engine invocation fails with a
    message that begins with a recognized prefix, [runVm] invokes its
    callback with no error and a result object whose [error] field holds
    the engine's error; for [eth_call], [sendAsync] then answers with a
    successful response whose result is ['0x'] and which carries no error
    field, also when the invocation completes on the running
    subprovider. *)
Theorem normal_error_is_answered (payload : Payload) (err : Error) (s : State) :
  has_normal_prefix (message err) →
  runVm_cb (CbErr err) = CbOk ({| error := Some err; vm := None; gasUsed := None |} : Results)
  ∧ (method payload = "eth_call" →
       let response := {| resp_id := id payload; resp_jsonrpc := jsonrpc payload;
                          resp_result := Some (JStr "0x"); resp_error := None |} in
       sendAsync_cb payload (runVm_cb (CbErr err)) = Calls (CbOk response)
       ∧ (payload ∈ running s →
            last (trace (runTx_done payload (CbErr err) s)) = Some (EvReply payload (CbOk response)))).
Proof.
  intros Hnormal. split; [by apply runVm_cb_normal|].
  intros Hmethod response.
  assert (sendAsync_cb payload (runVm_cb (CbErr err)) = Calls (CbOk response)) as Hcb.
  { rewrite runVm_cb_normal by done. unfold Vm.sendAsync_cb. cbn [error].
    by rewrite bool_decide_true. }
  split; [done|]. intros Hin.
  unfold Vm.runTx_done. rewrite bool_decide_true by done.
  destruct (Stoplight.go (_ready s)) as [ready released].
  cbn [trace]. rewrite Hcb. cbn [reply_events]. apply last_snoc.
Qed.

(** C10. For every [eth_estimateGas] payload whose engine invocation fails
    with a recognized error, [runVm] hands [sendAsync] an object that has
    an [error] field and nothing else; the [eth_estimateGas] branch reads
    [gasUsed] from it, which is absent, and throws.  The path is reached
    from a new subprovider by the request and the failure of its
    invocation, and no response is produced on it. *)
Theorem estimateGas_normal_error_throws (payload : Payload) (err : Error)
    (tx : Transaction) (block : Block) (blockNumber : string) :
  method payload = "eth_estimateGas" →
  has_normal_prefix (message err) →
  setup toHex fromHex emptyBlock currentBlock payload = Some (tx, block, blockNumber) →
  runVm_cb (CbErr err) = CbOk ({| error := Some err; vm := None; gasUsed := None |} : Results)
  ∧ sendAsync_cb payload (runVm_cb (CbErr err)) = Throws "TypeError"
  ∧ trace (run [SendAsync payload; RunTxDone payload (CbErr err)])
    = [EvAwait payload; EvStop payload; EvRunTx payload tx block;
       EvGo payload; EvReplyThrow payload "TypeError"].
Proof.
  intros Hmethod Hnormal Hsetup.
  assert (sendAsync_cb payload (runVm_cb (CbErr err)) = Throws "TypeError") as Hcb.
  { rewrite runVm_cb_normal by done. unfold Vm.sendAsync_cb. cbn [error gasUsed].
    rewrite Hmethod. reflexivity. }
  split_and!; [by apply runVm_cb_normal|done|].
  unfold Vm.run, Vm.new. cbn [foldl Vm.step Stoplight.go Stoplight.new fst].
  rewrite sendAsync_open by done. rewrite (runVm_body_runs _ _ _ _ _ Hsetup).
  cbn [_ready running trace app].
  rewrite runTx_done_running by (cbn; apply elem_of_cons; by left).
  cbn [Stoplight.go Stoplight.stop Stoplight.queue foldl trace running _ready fst snd].
  rewrite Hcb. reflexivity.
Qed.

(** *** The gate: acquisitions and releases *)

Lemma count_app {A} (f : A → bool) (l l' : list A) :
  length (List.filter f (l ++ l')) = length (List.filter f l) + length (List.filter f l').
Proof. by rewrite List.filter_app, length_app. Qed.

Lemma in_flight_remove_one (payload q : Payload) (l : list Payload) :
  payload ∈ l →
  length (List.filter (λ p, bool_decide (p = q)) l)
  = length (List.filter (λ p, bool_decide (p = q)) (remove_one payload l))
    + (if bool_decide (payload = q) then 1 else 0).
Proof.
  induction l as [|p rest IH]; intros Hin; [by apply elem_of_nil in Hin|].
  cbn [remove_one]. destruct (decide (p = payload)) as [->|Hne].
  - cbn [List.filter]. destruct (bool_decide (payload = q)); cbn; lia.
  - apply elem_of_cons in Hin as [->|Hin]; [done|].
    cbn [List.filter]. specialize (IH Hin).
    destruct (bool_decide (p = q)); cbn [length]; lia.
Qed.

Lemma runVm_body_balanced (s : State) (payload : Payload) :
  balanced s → balanced (runVm_body s payload).
Proof.
  intros H q. specialize (H q). revert H.
  unfold Vm.runVm_body, acquisitions, releases, in_flight, aborted.
  destruct (setup _ _ _ _ _) as [[[tx block] blockNumber]|];
    cbn [trace running]; rewrite !count_app;
    cbn [List.filter is_stop is_go is_setup_throw];
    destruct (bool_decide (payload = q)); cbn [length]; lia.
Qed.

Lemma runVm_body_releases (s : State) (payload q : Payload) :
  releases q (runVm_body s payload) = releases q s.
Proof.
  unfold Vm.runVm_body, releases.
  destruct (setup _ _ _ _ _) as [[[tx block] blockNumber]|];
    cbn [trace]; rewrite count_app; cbn; lia.
Qed.

Lemma released_balanced (queue : list Payload) :
  ∀ s : State, balanced s → balanced (foldl runVm_body s queue).
Proof.
  induction queue as [|p rest IH]; intros s H; [done|].
  cbn [foldl]. by apply IH, runVm_body_balanced.
Qed.

Lemma released_releases (queue : list Payload) (q : Payload) :
  ∀ s : State, releases q (foldl runVm_body s queue) = releases q s.
Proof.
  induction queue as [|p rest IH]; intros s; [done|].
  cbn [foldl]. by rewrite IH, runVm_body_releases.
Qed.

Lemma step_balanced (s : State) (i : Input) : balanced s → balanced (step s i).
Proof.
  intros H. destruct i as [payload|payload res]; cbn [Vm.step].
  - unfold Vm.sendAsync. destruct (Stoplight.await payload (_ready s)) as [ready now].
    apply released_balanced. intros q. specialize (H q). revert H.
    unfold acquisitions, releases, in_flight, aborted. cbn [trace running].
    rewrite !count_app. cbn. lia.
  - unfold Vm.runTx_done. case_bool_decide as Hin; [|done].
    destruct (Stoplight.go (_ready s)) as [ready released].
    match goal with |- balanced {| _ready := _; running := _; trace := trace ?s1 ++ ?r |} =>
      assert (balanced s1) as H1; [|set (t := s1) in *; set (rs := r)] end.
    { apply released_balanced. intros q. specialize (H q). revert H.
      unfold acquisitions, releases, in_flight, aborted. cbn [trace running].
      rewrite !count_app, (in_flight_remove_one payload q (running s) Hin).
      cbn [List.filter is_stop is_go is_setup_throw].
      destruct (bool_decide (payload = q)); cbn [length]; lia. }
    intros q. specialize (H1 q). revert H1.
    unfold acquisitions, releases, in_flight, aborted. cbn [trace running].
    rewrite !count_app.
    assert (∀ f, (∀ p a, f (EvReply p a) = false) → (∀ p w, f (EvReplyThrow p w) = false) →
                 length (List.filter f rs) = 0) as Hrs.
    { intros f Hf1 Hf2. unfold rs. destruct (Vm.sendAsync_cb _ _ _ _); cbn; by rewrite ?Hf1, ?Hf2. }
    rewrite !Hrs by done. lia.
Qed.

Lemma run_balanced (inputs : list Input) : balanced (run inputs).
Proof.
  unfold Vm.run.
  assert (balanced (Vm.new (Buffer := Buffer))) as Hnew by (intros q; reflexivity).
  revert Hnew. generalize (Vm.new (Buffer := Buffer)).
  induction inputs as [|i rest IH]; intros s H; [done|].
  cbn [foldl]. by apply IH, step_balanced.
Qed.

(** What the function behind the gate does to the observations. *)
Lemma runVm_body_obs (s : State) (payload : Payload) :
  stopped (runVm_body s payload) = stopped s ++ [payload]
  ∧ awaited (runVm_body s payload) = awaited s
  ∧ _ready (runVm_body s payload) = Stoplight.stop (_ready s).
Proof.
  unfold Vm.runVm_body, stopped, awaited.
  destruct (setup _ _ _ _ _) as [[[tx block] blockNumber]|]; cbn [trace _ready];
    rewrite !omap_app; cbn [omap list_omap]; rewrite ?app_nil_r; by split_and!.
Qed.

(** The functions released by one opening of the gate all run past it, in
    their order; each closes it again, and none is put back on the queue. *)
Lemma released_obs (queue : list Payload) :
  ∀ s : State,
    stopped (foldl runVm_body s queue) = stopped s ++ queue
    ∧ awaited (foldl runVm_body s queue) = awaited s
    ∧ Stoplight.queue (_ready (foldl runVm_body s queue)) = Stoplight.queue (_ready s)
    ∧ Stoplight.isOpen (_ready (foldl runVm_body s queue))
      = (if queue is [] then Stoplight.isOpen (_ready s) else false).
Proof.
  induction queue as [|p rest IH]; intros s.
  - cbn. by rewrite app_nil_r.
  - cbn [foldl]. destruct (IH (runVm_body s p)) as (H1 & H2 & H3 & H4).
    destruct (runVm_body_obs s p) as (B1 & B2 & B3).
    rewrite H1, H2, H3, H4, B1, B2, B3. cbn [Stoplight.stop Stoplight.queue Stoplight.isOpen].
    split_and!; [by rewrite <-app_assoc|done|done|by destruct rest].
Qed.

(** C8. When the engine invocation made for a payload completes, whatever
    its result (success, recognized error or any other error), the gate is
    released once for it: it is opened, every function that waited on it is
    taken off the queue and runs past it in the order of arrival, and the
    gate is left open unless one of them has closed it again.  At every
    moment each acquisition of the gate has been released exactly once, but
    for the invocations still under way and those whose set-up threw before
    the engine was invoked. *)
Theorem gate_released_once (inputs : list Input) (payload : Payload) (res : Callback Results) :
  payload ∈ running (run inputs) →
  releases payload (step (run inputs) (RunTxDone payload res))
  = S (releases payload (run inputs))
  ∧ Stoplight.queue (_ready (step (run inputs) (RunTxDone payload res))) = []
  ∧ Stoplight.isOpen (_ready (step (run inputs) (RunTxDone payload res)))
    = (if Stoplight.queue (_ready (run inputs)) is [] then true else false)
  ∧ stopped (step (run inputs) (RunTxDone payload res))
    = stopped (run inputs) ++ Stoplight.queue (_ready (run inputs))
  ∧ awaited (step (run inputs) (RunTxDone payload res)) = awaited (run inputs)
  ∧ balanced (run inputs)
  ∧ balanced (step (run inputs) (RunTxDone payload res)).
Proof.
  intros Hin.
  assert (∀ f : Event (Buffer := Buffer) → option Payload,
            (∀ p a, f (EvReply p a) = None) → (∀ p w, f (EvReplyThrow p w) = None) →
            omap f (reply_events payload (sendAsync_cb payload (runVm_cb res))) = [])
    as Hreply.
  { intros f Hf1 Hf2. destruct (Vm.sendAsync_cb _ _ _ _); cbn; by rewrite ?Hf1, ?Hf2. }
  destruct (released_obs (Stoplight.queue (_ready (run inputs)))
              {| _ready := {| Stoplight.isOpen := true; Stoplight.queue := [] |};
                 running := remove_one payload (running (run inputs));
                 trace := trace (run inputs) ++ [EvGo payload] |})
    as (H1 & H2 & H3 & H4).
  split_and!.
  - cbn [Vm.step]. rewrite runTx_done_running by done. cbn zeta.
    unfold releases at 1. cbn [trace]. rewrite count_app.
    match goal with |- _ + ?x = _ => replace x with 0 end.
    + rewrite Nat.add_0_r. fold (releases payload (foldl runVm_body
        {| _ready := (Stoplight.go (_ready (run inputs))).1;
           running := remove_one payload (running (run inputs));
           trace := trace (run inputs) ++ [EvGo payload] |}
        (Stoplight.go (_ready (run inputs))).2)).
      rewrite released_releases. unfold releases. cbn [trace].
      rewrite count_app. cbn [List.filter is_go].
      rewrite bool_decide_true by done. cbn [length]. lia.
    + destruct (Vm.sendAsync_cb _ _ _ _); reflexivity.
  - cbn [Vm.step]. rewrite runTx_done_running by done. cbn zeta.
    cbn [_ready Stoplight.go fst snd]. exact H3.
  - cbn [Vm.step]. rewrite runTx_done_running by done. cbn zeta.
    cbn [_ready Stoplight.go fst snd]. rewrite H4. cbn [_ready Stoplight.isOpen].
    by destruct (Stoplight.queue (_ready (run inputs))).
  - cbn [Vm.step]. rewrite runTx_done_running by done. cbn zeta.
    cbn [Stoplight.go fst snd]. unfold stopped at 1. cbn [trace].
    rewrite omap_app, Hreply, app_nil_r by done.
    fold (stopped (foldl runVm_body
        {| _ready := {| Stoplight.isOpen := true; Stoplight.queue := [] |};
           running := remove_one payload (running (run inputs));
           trace := trace (run inputs) ++ [EvGo payload] |}
        (Stoplight.queue (_ready (run inputs))))).
    rewrite H1. unfold stopped. cbn [trace]. rewrite omap_app. cbn [omap list_omap].
    by rewrite app_nil_r.
  - cbn [Vm.step]. rewrite runTx_done_running by done. cbn zeta.
    cbn [Stoplight.go fst snd]. unfold awaited at 1. cbn [trace].
    rewrite omap_app, Hreply, app_nil_r by done.
    fold (awaited (foldl runVm_body
        {| _ready := {| Stoplight.isOpen := true; Stoplight.queue := [] |};
           running := remove_one payload (running (run inputs));
           trace := trace (run inputs) ++ [EvGo payload] |}
        (Stoplight.queue (_ready (run inputs))))).
    rewrite H2. unfold awaited. cbn [trace]. rewrite omap_app. cbn [omap list_omap].
    by rewrite app_nil_r.
  - apply run_balanced.
  - apply step_balanced, run_balanced.
Qed.

(** With two requests the second waits for the first: it is queued while
    the first invocation runs, and its own starts when that one ends. *)
Lemma two_requests_serialised (p1 p2 : Payload) (res : Callback Results) tx1 b1 n1 tx2 b2 n2 :
  setup toHex fromHex emptyBlock currentBlock p1 = Some (tx1, b1, n1) →
  setup toHex fromHex emptyBlock currentBlock p2 = Some (tx2, b2, n2) →
  running (run [SendAsync p1; SendAsync p2]) = [p1]
  ∧ running (run [SendAsync p1; SendAsync p2; RunTxDone p1 res]) = [p2].
Proof.
  intros H1 H2.
  unfold Vm.run, Vm.new. cbn [foldl Vm.step Stoplight.go Stoplight.new fst].
  rewrite (sendAsync_open p1) by done. rewrite (runVm_body_runs _ _ _ _ _ H1).
  rewrite sendAsync_closed by reflexivity. cbn [_ready running trace app].
  split; [done|].
  rewrite runTx_done_running by (cbn; apply elem_of_cons; by left).
  cbn [Stoplight.go Stoplight.stop Stoplight.queue foldl trace running _ready fst snd app
       remove_one].
  rewrite decide_True by done.
  by rewrite (runVm_body_runs _ _ _ _ _ H2).
Qed.

(** With three, the two that waited are released by the same opening of
    the gate and run together. *)
Lemma three_requests_overlap (p1 p2 p3 : Payload) (res : Callback Results)
    tx1 b1 n1 tx2 b2 n2 tx3 b3 n3 :
  setup toHex fromHex emptyBlock currentBlock p1 = Some (tx1, b1, n1) →
  setup toHex fromHex emptyBlock currentBlock p2 = Some (tx2, b2, n2) →
  setup toHex fromHex emptyBlock currentBlock p3 = Some (tx3, b3, n3) →
  running (run [SendAsync p1; SendAsync p2; SendAsync p3; RunTxDone p1 res]) = [p2; p3].
Proof.
  intros H1 H2 H3.
  unfold Vm.run, Vm.new. cbn [foldl Vm.step Stoplight.go Stoplight.new fst].
  rewrite (sendAsync_open p1) by done. rewrite (runVm_body_runs _ _ _ _ _ H1).
  rewrite (sendAsync_closed p2) by reflexivity.
  rewrite (sendAsync_closed p3) by reflexivity. cbn [_ready running trace app].
  rewrite runTx_done_running by (cbn; apply elem_of_cons; by left).
  cbn [Stoplight.go Stoplight.stop Stoplight.queue foldl trace running _ready fst snd app
       remove_one].
  rewrite decide_True by done.
  rewrite (runVm_body_runs _ _ _ _ _ H2), (runVm_body_runs _ _ _ _ _ H3).
  reflexivity.
Qed.

End Facts.

(** *** The account lookup *)

Section FetchFacts.

Context {Buffer : Type}.
Variable toHex : Buffer → string.
Variable createPayload : string → list Param → Payload.
Variable rootProvider_sendAsync : Payload → Callback Response.
Variable arrival : list string → list string.

(** The object of results has no other fields than those the tasks that
    answered have filled in. *)
Lemma join_keys {A} (pending : nat) :
  ∀ (results : gmap string A) completions r k,
    Async.join pending results completions = Some (CbOk r) →
    is_Some (r !! k) →
    is_Some (results !! k) ∨ k ∈ completions.*1.
Proof.
  induction pending as [|n IH]; intros results completions r k Hjoin Hk; cbn in Hjoin.
  - injection Hjoin as <-. by left.
  - destruct completions as [|[key [err|value]] rest]; [done..|].
    destruct (IH _ _ _ k Hjoin Hk) as [Hins|Hin].
    + destruct (decide (key = k)) as [->|Hne].
      * right. cbn. apply elem_of_cons. by left.
      * left. by rewrite lookup_insert_ne in Hins.
    + right. cbn. apply elem_of_cons. by right.
Qed.

Lemma parallel_keys {A} (tasks : list (string * Callback A)) (order : list string) r k :
  Async.parallel tasks order = Some (CbOk r) →
  is_Some (r !! k) →
  k ∈ tasks.*1.
Proof.
  unfold Async.parallel. intros Hjoin Hk.
  destruct (join_keys _ _ _ _ k Hjoin Hk) as [Hempty|Hin].
  - rewrite lookup_empty in Hempty. by destruct Hempty.
  - apply list_elem_of_fmap in Hin as ([key answer] & -> & Hin).
    apply list_elem_of_omap in Hin as (key' & _ & Hsome).
    destruct (_ !! key') as [answer'|] eqn:Hlook; [|done].
    cbn in Hsome. injection Hsome as -> ->.
    apply elem_of_list_to_map_2 in Hlook.
    apply list_elem_of_fmap. by exists (key, answer).
Qed.

(** Whatever the network answers, an account that [_fetchAccount] hands
    over has no code and exists. *)
Lemma fetchAccount_always_exists (blockNumber : string) (address : Buffer) (account : Account) :
  (_fetchAccount toHex createPayload rootProvider_sendAsync arrival blockNumber address).2
  = Some (CbOk account) →
  _code account = JUndefined ∧ _exists account = true.
Proof.
  unfold _fetchAccount. cbn [snd].
  destruct (Async.parallel _ _) as [[err|results]|] eqn:Hp; [done| |done].
  intros [= <-]. cbn [_code _exists].
  assert (get_prop results "_code" = JUndefined) as ->.
  { unfold get_prop. destruct (results !! "_code") as [v|] eqn:Hv; [|done].
    apply (parallel_keys _ _ _ "_code") in Hp; [|by rewrite Hv].
    cbn in Hp. apply elem_of_cons in Hp as [Hp|Hp]; [done|].
    apply elem_of_cons in Hp as [Hp|Hp]; [done|]. by apply elem_of_nil in Hp. }
  split; [done|]. cbn. by rewrite !orb_true_r.
Qed.

End FetchFacts.

(** *** On concrete requests *)

Import Examples.

Lemma wrong_nonce_is_normal : has_normal_prefix (message wrong_nonce).
Proof.
  exists WRONG_NONCE. split; [|reflexivity].
  apply elem_of_cons; right. apply elem_of_cons; by left.
Qed.

(** C1, as stated, fails: the response to an [eth_call] whose invocation
    failed on a wrong nonce carries the result ['0x'] and no error field. *)
Lemma normal_error_response_has_no_error_field :
  ¬ (∃ response,
       sendAsync_cb hex_id bn_hex call1 (runVm_cb (CbErr wrong_nonce)) = Calls (CbOk response)
       ∧ is_Some (resp_error response)).
Proof.
  intros (response & Hcb & Herr). vm_compute in Hcb.
  injection Hcb as <-. by destruct Herr.
Qed.

Lemma normal_error_is_answered_witness :
  sendAsync_cb hex_id bn_hex call1 (runVm_cb (CbErr wrong_nonce))
  = Calls (CbOk {| resp_id := 1; resp_jsonrpc := "2.0";
                   resp_result := Some (JStr "0x"); resp_error := None |}).
Proof.
  destruct (normal_error_is_answered hex_id hex_id bn_hex emptyBlock blockData
              call1 wrong_nonce (vm_run [SendAsync call1]) wrong_nonce_is_normal)
    as [_ Hcall].
  destruct (Hcall eq_refl) as [Hcb _]. exact Hcb.
Defined.

Lemma estimateGas_normal_error_throws_witness :
  Vm.trace (vm_run [SendAsync estimate1; RunTxDone estimate1 (CbErr wrong_nonce)])
  = [EvAwait estimate1; EvStop estimate1; EvRunTx estimate1 tx block;
     EvGo estimate1; EvReplyThrow estimate1 "TypeError"].
Proof.
  apply (estimateGas_normal_error_throws hex_id hex_id bn_hex emptyBlock blockData
           estimate1 wrong_nonce tx block "0x0a").
  - reflexivity.
  - exact wrong_nonce_is_normal.
  - vm_compute. reflexivity.
Defined.

Lemma gate_released_once_witness :
  releases call1 (vm_run [SendAsync call1; RunTxDone call1 (CbErr wrong_nonce)]) = 1
  ∧ Stoplight.isOpen (Vm._ready (vm_run [SendAsync call1; RunTxDone call1 (CbErr wrong_nonce)]))
    = true.
Proof.
  destruct (gate_released_once hex_id hex_id bn_hex emptyBlock blockData
              [SendAsync call1] call1 (CbErr wrong_nonce)) as (H1 & _ & H3 & _).
  - vm_compute. apply elem_of_cons. by left.
  - split; [exact H1|exact H3].
Defined.

(** C9 at three requests. The second and the third wait on the closed gate
    while the first invocation runs; its completion opens the gate, which
    releases both, and each starts its own invocation: two invocations of
    the machine are under way at once. *)
Theorem released_together_run_together :
  running (vm_run [SendAsync call1; SendAsync call2; SendAsync call3; RunTxDone call1 vm_ok])
  = [call2; call3]
  ∧ Vm.trace (vm_run [SendAsync call1; SendAsync call2; SendAsync call3; RunTxDone call1 vm_ok])
    = [EvAwait call1; EvStop call1; EvRunTx call1 tx block;
       EvAwait call2; EvAwait call3;
       EvGo call1;
       EvStop call2; EvRunTx call2 tx block;
       EvStop call3; EvRunTx call3 tx block;
       EvReply call1 (CbOk {| resp_id := 1; resp_jsonrpc := "2.0";
                              resp_result := Some JNull; resp_error := None |})].
Proof. split; vm_compute; reflexivity. Qed.

(** C2 on an account that was never used. [_fetchAccount] sends two
    requests, none of them for the code, and reports that the account
    exists: the [_code] it compares with ['0x'] is a field no task fills
    in. *)
Theorem fetchAccount_never_used_account :
  _fetchAccount hex_id createPayload empty_account_network in_order "0x0a" "aa"
  = ([("eth_getTransactionCount", [PVal (JStr "0xaa"); PVal (JStr "0x0a")]);
      ("eth_getBalance", [PVal (JStr "0xaa"); PVal (JStr "0x0a")])],
     Some (CbOk {| nonce := JStr "0x0"; balance := JStr "0x0";
                   _code := JUndefined; _exists := true |}))
  ∧ spec_fetches createPayload empty_account_network "0xaa" "0x0a"
    = [("eth_getTransactionCount", [PVal (JStr "0xaa"); PVal (JStr "0x0a")]);
       ("eth_getBalance", [PVal (JStr "0xaa"); PVal (JStr "0x0a")]);
       ("eth_getCode", [PVal (JStr "0xaa"); PVal (JStr "0x0a")])]
  ∧ spec_exists createPayload empty_account_network "0xaa" "0x0a" = Some false.
Proof. split_and!; vm_compute; reflexivity. Qed.

End VmProps.

(** ** HookedWalletSubprovider *)

Module WalletProps.
Import HookedWallet.

(** Two tasks that both answer are joined into an object that holds both
    answers, in whichever order they arrive. *)
Lemma parallel_both {A} (k1 k2 : string) (a b : A) (order : list string) :
  k1 ≠ k2 →
  [k1; k2] ≡ₚ order →
  ∃ result, Async.parallel [(k1, CbOk a); (k2, CbOk b)] order = Some (CbOk result)
            ∧ result !! k1 = Some a ∧ result !! k2 = Some b.
Proof.
  intros Hne Hperm. unfold Async.parallel.
  assert ((list_to_map [(k1, CbOk a); (k2, CbOk b)] : gmap string (Callback A)) !! k1
          = Some (CbOk a)) as H1.
  { rewrite !list_to_map_cons. cbn [fst snd]. by rewrite lookup_insert_eq. }
  assert ((list_to_map [(k1, CbOk a); (k2, CbOk b)] : gmap string (Callback A)) !! k2
          = Some (CbOk b)) as H2.
  { rewrite !list_to_map_cons. cbn [fst snd].
    by rewrite lookup_insert_ne, lookup_insert_eq. }
  apply Permutation_length_2_inv in Hperm as [-> | ->];
    cbn [omap list_omap length]; rewrite H1, H2;
    cbn [fmap option_fmap option_map Async.join];
    eexists; (split; [reflexivity|]).
  - by rewrite lookup_insert_ne, !lookup_insert_eq.
  - by rewrite lookup_insert_eq, lookup_insert_ne, lookup_insert_eq.
Qed.

(** Reads off the stages of a log laid out around that of autofill. *)
Ltac in_order log Hstages :=
  cbn [finish fst app];
  repeat first [rewrite omap_app | progress cbn [omap list_omap stage_of app]];
  rewrite ?bool_decide_true by done;
  destruct Hstages as [Hthrown | ->]; [simplify_eq|]; by eexists.

Section Facts.

Variable opts : Opts.
Variable emitPayload : string → list Param → Callback Response.
Variable arrival : list string → list string.

#[local] Abbreviation fillInTxExtras := (fillInTxExtras emitPayload arrival).
#[local] Abbreviation handleRequest := (handleRequest opts emitPayload arrival).
#[local] Abbreviation submitTx := (submitTx emitPayload).

Lemma fillInTxExtras_log (txParams : option Param) :
  (fillInTxExtras txParams).1 = []
  ∨ ∃ txData, txParams ≫= own_props = Some txData
              ∧ (fillInTxExtras txParams).1 = autofill_requests txData.
Proof.
  unfold HookedWallet.fillInTxExtras.
  destruct (txParams ≫= own_props) as [txData|]; [right|by left].
  by exists txData.
Qed.

Lemma fillInTxExtras_stages (txParams : option Param) :
  fillInTxExtras txParams = ([], Thrown "TypeError")
  ∨ stages (fillInTxExtras txParams).1 = [Autofill; Autofill].
Proof.
  unfold HookedWallet.fillInTxExtras.
  destruct (txParams ≫= own_props) as [txData|]; [by right|by left].
Qed.

(** C7. For every transaction the caller supplies, autofill sends the
    request for the fee price and the request for the sender's pending
    count together and merges the answers into the transaction, the fields
    the caller supplied taking precedence and ['0x9000'] standing for an
    absent [gas]; the outcome goes on to signing. *)
Theorem fillInTxExtras_merges (txData : gmap string jsval) (gasPrice nonce : Response) :
  emitPayload "eth_gasPrice" [] = CbOk gasPrice →
  emitPayload "eth_getTransactionCount" [PVal (get_prop txData "from"); PVal (JStr "pending")]
  = CbOk nonce →
  ["gasPrice"; "nonce"] ≡ₚ arrival ["gasPrice"; "nonce"] →
  let fullTxData :=
    txData ∪ {[ "gasPrice" := result_of gasPrice; "nonce" := result_of nonce;
                "gas" := JStr "0x9000" ]} in
  fillInTxExtras (Some (PObj txData)) = (autofill_requests txData, Done fullTxData)
  ∧ (∀ k v, txData !! k = Some v → fullTxData !! k = Some v)
  ∧ (txData !! "gasPrice" = None → fullTxData !! "gasPrice" = Some (result_of gasPrice))
  ∧ (txData !! "nonce" = None → fullTxData !! "nonce" = Some (result_of nonce))
  ∧ (txData !! "gas" = None → fullTxData !! "gas" = Some (JStr "0x9000"))
  ∧ (∀ payload sign,
       method payload = "eth_sendTransaction" →
       params payload !! 0 = Some (PObj txData) →
       self_approveTransaction opts (Some (PObj txData)) = CbOk true →
       signTransaction opts = Some sign →
       ∃ rest, (handleRequest payload).1
               = EvApprove (Some (PObj txData)) :: autofill_requests txData
                 ++ EvSign fullTxData :: rest).
Proof.
  intros Hgas Hnonce Harrival fullTxData.
  assert (fillInTxExtras (Some (PObj txData)) = (autofill_requests txData, Done fullTxData))
    as Hfill.
  { unfold HookedWallet.fillInTxExtras, self_emitPayload.
    cbn [mbind option_bind own_props Async.answers Async.started fmap list_fmap fst snd].
    rewrite Hgas, Hnonce.
    destruct (parallel_both "gasPrice" "nonce" gasPrice nonce _ ltac:(done) Harrival)
      as (result & -> & -> & ->).
    reflexivity. }
  split_and!; [done|..].
  - intros k v Hk. by apply lookup_union_Some_l.
  - intros Hk. unfold fullTxData. by rewrite lookup_union_r.
  - intros Hk. unfold fullTxData. by rewrite lookup_union_r.
  - intros Hk. unfold fullTxData. by rewrite lookup_union_r.
  - intros payload sign Hmethod Hparams Happrove Hsign.
    unfold HookedWallet.handleRequest.
    rewrite Hmethod, Hparams. cbn [bool_decide decide_rel].
    rewrite !bool_decide_false by done. rewrite bool_decide_true by done.
    unfold call at 1. rewrite Happrove. cbn [bind negb]. rewrite Hfill.
    unfold self_signTransaction. rewrite Hsign.
    unfold call at 1. cbn [bind].
    destruct (sign fullTxData) as [err|rawTx]; cbn [bind].
    + cbn [finish fst]. eexists. cbn [app]. reflexivity.
    + destruct (HookedWallet.submitTx emitPayload rawTx) as [log [r|err|what|]] eqn:Hsubmit;
        cbn [bind ret finish fst]; eexists; cbn [app]; reflexivity.
Qed.

(** C6. The send-transaction pipeline runs approve, autofill, sign and
    submit in that order, and a step that fails halts it before any later
    step runs: an approval that fails or answers false leaves the approval
    as the only call made, no autofill request is sent and the signer is
    not invoked, and a refusal is reported as "User denied transaction.";
    a failed autofill stops before signing, a failed signing before
    submission; when every step works the answer is that of the
    submission. *)
Theorem sendTransaction_pipeline (payload : Payload) :
  method payload = "eth_sendTransaction" →
  let txParams := params payload !! 0 in
  let approval := self_approveTransaction opts txParams in
  let autofill := fillInTxExtras txParams in
  stages (handleRequest payload).1 `prefix_of` [Approve; Autofill; Autofill; Sign; Submit]
  ∧ (∀ err, approval = CbErr err →
       handleRequest payload = ([EvApprove txParams], End (CbErr err)))
  ∧ (approval = CbOk false →
       handleRequest payload
       = ([EvApprove txParams], End (CbErr (mkError "User denied transaction."))))
  ∧ (∀ err, approval = CbOk true → autofill.2 = Failed err →
       handleRequest payload = (EvApprove txParams :: autofill.1, End (CbErr err)))
  ∧ (∀ fullTxParams sign err,
       approval = CbOk true → autofill.2 = Done fullTxParams →
       signTransaction opts = Some sign → sign fullTxParams = CbErr err →
       handleRequest payload
       = (EvApprove txParams :: autofill.1 ++ [EvSign fullTxParams], End (CbErr err)))
  ∧ (∀ fullTxParams sign rawTx,
       approval = CbOk true → autofill.2 = Done fullTxParams →
       signTransaction opts = Some sign → sign fullTxParams = CbOk rawTx →
       handleRequest payload
       = (EvApprove txParams :: autofill.1
            ++ [EvSign fullTxParams; EvEmit "eth_sendRawTransaction" [PVal rawTx]],
          match emitPayload "eth_sendRawTransaction" [PVal rawTx] with
          | CbErr err => End (CbErr err)
          | CbOk response => End (CbOk (RVal (result_of response)))
          end)).
Proof.
  intros Hmethod txParams approval autofill.
  assert (handleRequest payload
          = finish (didApprove <- call (EvApprove txParams) approval ;;
                    if negb didApprove then fail (mkError "User denied transaction.") else
                    fullTxParams <- autofill ;;
                    rawTx <- self_signTransaction opts fullTxParams ;;
                    result <- submitTx rawTx ;;
                    ret (RVal result))) as ->.
  { unfold HookedWallet.handleRequest. rewrite Hmethod.
    rewrite !bool_decide_false by done. by rewrite bool_decide_true by done. }
  split_and!.
  - pose proof (fillInTxExtras_stages txParams) as Hstages. fold autofill in Hstages.
    unfold stages in *.
    unfold self_signTransaction, HookedWallet.submitTx, self_emitPayload, call. cbn [fst snd].
    destruct approval as [err|[|]]; cbn [bind negb finish fst fail];
      [by eexists| |by eexists].
    destruct autofill as [log [fullTxParams|err|what|]]; cbn [bind fst snd] in *.
    { destruct (signTransaction opts) as [sign|]; cbn [bind throw].
      - destruct (sign fullTxParams) as [err|rawTx]; cbn [bind].
        + in_order log Hstages.
        + destruct (emitPayload "eth_sendRawTransaction" [PVal rawTx]) as [err|response];
            cbn [bind ret]; in_order log Hstages.
      - in_order log Hstages. }
    all: in_order log Hstages.
  - intros err ->. reflexivity.
  - intros ->. reflexivity.
  - intros err -> Hfill. unfold call. cbn [bind negb].
    destruct autofill as [log outcome]. cbn [snd fst] in *. subst outcome. reflexivity.
  - intros fullTxParams sign err -> Hfill Hsign Herr. unfold call. cbn [bind negb].
    destruct autofill as [log outcome]. cbn [snd fst] in *. subst outcome.
    cbn [bind]. unfold self_signTransaction. rewrite Hsign. unfold call. rewrite Herr.
    reflexivity.
  - intros fullTxParams sign rawTx -> Hfill Hsign Hraw. unfold call. cbn [bind negb].
    destruct autofill as [log outcome]. cbn [snd fst] in *. subst outcome.
    cbn [bind]. unfold self_signTransaction. rewrite Hsign. unfold call. rewrite Hraw.
    cbn [bind]. unfold HookedWallet.submitTx, self_emitPayload, call. cbn [fst snd].
    destruct (emitPayload "eth_sendRawTransaction" [PVal rawTx]) as [err|response];
      cbn [bind ret finish app]; reflexivity.
Qed.

End Facts.

(** *** On concrete requests *)

Import Examples.

Lemma sendTransaction_pipeline_witness :
  handleRequest opts_refuse wallet_network in_order sendTransaction1
  = ([EvApprove (Some (PObj txParams))], End (CbErr (mkError "User denied transaction."))).
Proof.
  destruct (sendTransaction_pipeline opts_refuse wallet_network in_order sendTransaction1 eq_refl)
    as (_ & _ & Hrefused & _).
  apply Hrefused. reflexivity.
Defined.

Lemma fillInTxExtras_merges_witness :
  fillInTxExtras wallet_network in_order (Some (PObj txParams))
  = (autofill_requests txParams, Done fullTxParams)
  ∧ ∃ rest, (handleRequest opts_default wallet_network in_order sendTransaction1).1
            = EvApprove (Some (PObj txParams)) :: autofill_requests txParams
              ++ EvSign fullTxParams :: rest.
Proof.
  destruct (fillInTxExtras_merges opts_default wallet_network in_order txParams
              (mkResponse 0 "2.0" (Some (JStr "0x4")) None)
              (mkResponse 0 "2.0" (Some (JStr "0x7")) None)
              eq_refl eq_refl (Permutation_refl _))
    as (Hfill & _ & _ & _ & _ & Hsign).
  assert (txParams ∪ {[ "gasPrice" := result_of (mkResponse 0 "2.0" (Some (JStr "0x4")) None);
                       "nonce" := result_of (mkResponse 0 "2.0" (Some (JStr "0x7")) None);
                       "gas" := JStr "0x9000" ]}
          = fullTxParams) as Hfull by (vm_compute; reflexivity).
  rewrite Hfull in Hfill, Hsign.
  split; [exact Hfill|].
  exact (Hsign sendTransaction1 (λ _, CbOk signed) eq_refl eq_refl eq_refl eq_refl).
Defined.

End WalletProps.

(** * Further properties of the code *)

(** ** FallbackAsyncStore *)

Module StoreExtra.
Import FallbackAsyncStore StoreProps StoreObs.

#[local] Arguments fetch_count : simpl never.

Section Facts.

Context {P O : Type}.

#[local] Abbreviation value := (PlainObject.value (P := P) (O := O)).
#[local] Abbreviation Undefined := (PlainObject.Undefined (P := P) (O := O)).

Variable members : value → string → PlainObject.Inherited (P := P) (O := O).
Variable fetch : list string → string → Callback value.

#[local] Abbreviation read := (PlainObject.read members).
#[local] Abbreviation get := (get members fetch).
#[local] Abbreviation set := (set members).
#[local] Abbreviation gets := (gets members fetch).

(** X1. Once a [get] on a store whose cache object has the prototype it
    was made with has handed a value other than [undefined] to its
    callback, every later [get] of that key hands over the same value and
    the fetch is not invoked for the key again, whatever the network
    answers by then. *)
Theorem get_answer_is_stable (k : string) (v : value) (self self1 : t) (later : list string) :
  plain self →
  v ≠ Undefined →
  get k self = (CbOk v, self1) →
  (∀ r, (k, r) ∈ (gets later self1).1 → r = CbOk v)
  ∧ fetch_count k (gets later self1).2 = fetch_count k self1.
Proof.
  intros Hplain Hdef Hget.
  assert (plain self1) as Hplain1.
  { pose proof (get_plain members fetch k self Hplain) as H. by rewrite Hget in H. }
  assert (read (cache self1) k = v) as Hcached.
  { destruct (PlainObject.is_undefined (read (cache self) k)) eqn:Hu.
    - apply is_undefined_true in Hu. rewrite (get_miss _ _ _ _ Hplain Hu) in Hget.
      destruct (fetch (fetched self) k) as [err|w]; [done|].
      injection Hget as <- <-. cbn [cache]. by rewrite read_landed, decide_True.
    - assert (read (cache self) k ≠ Undefined) as Hfound by (intros H; by rewrite H in Hu).
      rewrite (get_hit _ _ _ _ _ eq_refl Hfound) in Hget. by injection Hget as <- <-. }
  destruct (gets_cached members fetch k v later Hdef self1 Hplain1 Hcached)
    as (_ & _ & Hcount & Hreplies).
  by split.
Qed.

Lemma fruitless_cons (k a : string) (r : Callback value) (rs : list (string * Callback value)) :
  fruitless k ((a, r) :: rs)
  = (if is_fruitless r && bool_decide (a = k) then 1 else 0) + fruitless k rs.
Proof.
  unfold fruitless. cbn [List.filter fst snd]. by destruct (_ && _).
Qed.

Lemma gets_fetch_bound (k : string) (addresses : list string) :
  ∀ self, plain self → read (cache self) k = Undefined →
    fetch_count k (gets addresses self).2
    ≤ fetch_count k self + S (fruitless k (gets addresses self).1).
Proof.
  induction addresses as [|a rest IH]; intros self Hplain Hk; [cbn; lia|].
  cbn [FallbackAsyncStore.gets]. destruct (decide (a = k)) as [->|Hne].
  - rewrite (get_miss _ _ _ _ Hplain Hk). destruct self as [c log]. cbn [cache fetched] in *.
    destruct (fetch log k) as [err|w].
    + specialize (IH (mk c (log ++ [k])) Hplain Hk).
      destruct (FallbackAsyncStore.gets _ _ rest _) as [rs self2]. cbn [fst snd] in *.
      rewrite fruitless_cons. cbn [is_fruitless andb]. rewrite bool_decide_true by done.
      rewrite fetch_count_snoc, decide_True in IH by done. lia.
    + destruct (PlainObject.is_undefined w) eqn:Hw.
      * apply is_undefined_true in Hw. subst w.
        assert (read (cache (mk (landed c k Undefined) (log ++ [k]))) k = Undefined) as Hk'.
        { cbn [cache]. by rewrite read_landed, decide_True. }
        specialize (IH (mk (landed c k Undefined) (log ++ [k])) Hplain Hk').
        destruct (FallbackAsyncStore.gets _ _ rest _) as [rs self2]. cbn [fst snd] in *.
        rewrite fruitless_cons. cbn [is_fruitless andb]. rewrite bool_decide_true by done.
        rewrite fetch_count_snoc, decide_True in IH by done.
        unfold fetch_count in *; cbn [fetched] in *. lia.
      * assert (w ≠ Undefined) as Hdef by (intros H; by rewrite H in Hw).
        destruct (gets_cached members fetch k w rest Hdef (mk (landed c k w) (log ++ [k])))
          as (_ & _ & Hcount & _); [exact Hplain|cbn [cache]; by rewrite read_landed, decide_True|].
        destruct (FallbackAsyncStore.gets _ _ rest _) as [rs self2]. cbn [fst snd] in *.
        rewrite Hcount, fetch_count_snoc, decide_True by done.
        unfold fetch_count; cbn [fetched]. lia.
  - destruct (get_step members fetch k a self Hplain) as (r1 & self1 & Hget & Hplain1 & Hother & _).
    destruct (Hother Hne) as [Hk1 Hc1]. rewrite Hk in Hk1.
    rewrite Hget. specialize (IH self1 Hplain1 Hk1).
    destruct (FallbackAsyncStore.gets _ _ rest self1) as [rs self2]. cbn [fst snd] in *.
    rewrite fruitless_cons, bool_decide_false, andb_false_r by done. lia.
Qed.

(** X2. Over any sequence of [get] calls on a new store, the fetch is
    invoked for a key at most once more than the number of [get]s of that
    key that handed an error or [undefined] to their callback: a fetch is
    repeated only after a [get] that left nothing in the table. *)
Theorem fetches_bounded_by_fruitless_gets (k : string) (addresses : list string) :
  fetch_count k (gets addresses new).2 ≤ S (fruitless k (gets addresses new).1).
Proof.
  destruct (PlainObject.is_undefined (read (cache new) k)) eqn:Hu.
  - apply is_undefined_true in Hu.
    pose proof (gets_fetch_bound k addresses new (new_plain (P := P) (O := O)) Hu) as H.
    unfold fetch_count in *. cbn [fetched new] in H. cbn in H. exact H.
  - assert (read (cache new) k ≠ Undefined) as Hdef by (intros H; by rewrite H in Hu).
    destruct (gets_cached members fetch k _ addresses Hdef new (new_plain (P := P) (O := O)) eq_refl)
      as (_ & _ & Hc & _).
    rewrite Hc. unfold fetch_count; cbn. lia.
Qed.

(** X3. A [set] never invokes the fetch.  For a key other than
    [__proto__] and a value other than [undefined], on a store whose cache
    object has the prototype it was made with, the last value written to
    the key is the one read, and writing the key leaves the reading of
    every other key as it was: the same answer and the same fetches. *)
Theorem set_is_local (k k' : string) (v v' : value) (self : t) :
  k ≠ "__proto__" →
  v ≠ Undefined →
  plain self →
  fetched (set k v self) = fetched self
  ∧ get k (set k v (set k v' self)) = (CbOk v, set k v self)
  ∧ (k ≠ k' →
       (get k' (set k v self)).1 = (get k' self).1
       ∧ fetched (get k' (set k v self)).2 = fetched (get k' self).2
       ∧ read (cache (get k' (set k v self)).2) k = v).
Proof.
  intros Hk Hdef Hplain.
  assert (plain (set k v self)) as Hplainw by by apply set_plain.
  assert (read (cache (set k v self)) k = v) as Hread.
  { rewrite set_lands by done. cbn [cache]. by rewrite read_landed, decide_True. }
  split_and!; [done| |].
  - assert (set k v (set k v' self) = set k v self) as ->.
    { rewrite (set_lands _ k v (set k v' self)) by (done || by apply set_plain).
      rewrite !set_lands by done. cbn [cache fetched]. unfold landed.
      cbn [PlainObject.own PlainObject.proto]. by rewrite insert_insert_eq. }
    by apply get_hit.
  - intros Hne.
    assert (read (cache (set k v self)) k' = read (cache self) k') as Hsame.
    { rewrite set_lands by done. cbn [cache]. by rewrite read_landed, decide_False. }
    destruct (PlainObject.is_undefined (read (cache self) k')) eqn:Hu.
    + apply is_undefined_true in Hu.
      rewrite (get_miss _ _ _ _ Hplainw) by by rewrite Hsame.
      rewrite (get_miss _ _ _ _ Hplain Hu).
      assert (fetched (set k v self) = fetched self) as -> by done.
      destruct (fetch (fetched self) k') as [err|w]; cbn [fst snd cache fetched];
        split_and!; try done.
      by rewrite read_landed, decide_False.
    + assert (read (cache self) k' ≠ Undefined) as Hfound by (intros H; by rewrite H in Hu).
      rewrite (get_hit _ _ _ _ _ Hsame Hfound), (get_hit _ _ _ _ _ eq_refl Hfound).
      by split_and!.
Qed.

(** X4. The fetch is invoked only for keys that were asked for, in the
    order they were asked for, and at most once by each [get]. *)
Theorem fetches_follow_gets (addresses : list string) (self : t) :
  ∃ sent, fetched (gets addresses self).2 = fetched self ++ sent
          ∧ sent `sublist_of` addresses.
Proof.
  revert self. induction addresses as [|a rest IH]; intros self.
  - exists []. cbn. by rewrite app_nil_r.
  - cbn [FallbackAsyncStore.gets]. unfold FallbackAsyncStore.get. cbn zeta.
    destruct (negb (PlainObject.is_undefined (read (cache self) a))).
    + destruct (IH self) as (sent & Hsent & Hsub).
      destruct (FallbackAsyncStore.gets _ _ rest self) as [rs self2]. cbn [fst snd] in *.
      exists sent. split; [done|]. by apply sublist_cons.
    + destruct (fetch (fetched self) a) as [err|value];
        match goal with |- context [FallbackAsyncStore.gets _ _ rest ?s1] =>
          destruct (IH s1) as (sent & Hsent & Hsub);
          destruct (FallbackAsyncStore.gets _ _ rest s1) as [rs self2] end;
        cbn [fst snd fetched] in *; exists (a :: sent);
        (split; [by rewrite Hsent, <-app_assoc|by apply sublist_skip]).
Qed.

End Facts.

Import Examples.

Lemma get_answer_is_stable_witness :
  fetch_count "0xaa" (gets no_members fetch_code ["0xbb"; "0xaa"]
                           (get no_members fetch_code "0xaa" new).2).2 = 1.
Proof.
  apply (get_answer_is_stable no_members fetch_code "0xaa" (PlainObject.Prim "0x6001") new
           (get no_members fetch_code "0xaa" new).2 ["0xbb"; "0xaa"]).
  - reflexivity.
  - discriminate.
  - reflexivity.
Defined.

Lemma set_is_local_witness :
  get no_members fetch_code "0xaa"
      (set no_members "0xaa" (PlainObject.Prim "0x6002")
           (set no_members "0xaa" (PlainObject.Prim "0x6003") new))
  = (CbOk (PlainObject.Prim "0x6002"), set no_members "0xaa" (PlainObject.Prim "0x6002") new).
Proof.
  destruct (set_is_local no_members fetch_code "0xaa" "0xbb" (PlainObject.Prim "0x6002")
              (PlainObject.Prim "0x6003") new) as (_ & H & _);
    [discriminate|discriminate|reflexivity|].
  exact H.
Defined.

End StoreExtra.

(** ** FallbackStorageTrie *)

Module TrieExtra.
Import FallbackStorageTrie TrieProps.

Section Facts.

Context {Buffer : Type}.
Variable toHex : Buffer → string.
Variable fromHex : string → Buffer.
Variable fetchStorage : list string → string → Callback string.

#[local] Abbreviation get := (get toHex fromHex fetchStorage).
#[local] Abbreviation gets := (TrieObs.gets toHex fromHex fetchStorage).

Lemma gets_tree (keys : list Buffer) (self : t) : tree (gets keys self).2 = tree self.
Proof.
  revert self. induction keys as [|key rest IH]; intros self; [done|].
  cbn [TrieObs.gets]. unfold FallbackStorageTrie.get, super_get.
  destruct (tree self !! toHex key) as [value|].
  - specialize (IH self). by destruct (gets rest self).
  - destruct (fetchStorage _ _);
      match goal with |- context [gets rest ?s1] =>
        specialize (IH s1); by destruct (gets rest s1) end.
Qed.

(** X5. Reading never changes the trie, and the storage fetch is invoked
    for exactly the slots read that were not written locally, once for
    every such read and in the order of the reads. *)
Theorem gets_fetch_the_misses (keys : list Buffer) (self : t) :
  tree (gets keys self).2 = tree self
  ∧ fetched (gets keys self).2
    = fetched self ++ filter (λ keyHex, tree self !! keyHex = None) (toHex <$> keys).
Proof.
  revert self. induction keys as [|key rest IH]; intros self.
  - cbn. by rewrite app_nil_r.
  - cbn [TrieObs.gets fmap list_fmap].
    destruct (tree self !! toHex key) as [value|] eqn:Hkey.
    + rewrite (get_local toHex fromHex fetchStorage _ _ _ Hkey).
      destruct (IH self) as [Htree Hfetched].
      destruct (gets rest self) as [rs self2]. cbn [fst snd] in *.
      split; [done|]. rewrite filter_cons_False; [done|]. by rewrite Hkey.
    + rewrite (get_remote toHex fromHex fetchStorage _ _ Hkey).
      destruct (IH (mk (tree self) (fetched self ++ [toHex key]))) as [Htree Hfetched].
      destruct (gets rest _) as [rs self2]. cbn [fst snd tree fetched] in *.
      split; [done|]. rewrite filter_cons_True by done.
      by rewrite Hfetched, <-app_assoc.
Qed.

(** X6. A failure of the storage fetch is handed to the callback as it is,
    and a value written to a slot is read back whatever the network holds
    for it, also after any reads in between. *)
Theorem put_shadows_network (key value : Buffer) (between : list Buffer) (self : t) (err : Error) :
  (tree self !! toHex key = None →
     fetchStorage (fetched self) (toHex key) = CbErr err →
     (get key self).1 = CbErr err)
  ∧ (get key (gets between (put toHex key value self)).2).1 = CbOk value.
Proof.
  split.
  - intros Hmiss Hfail. rewrite (get_remote toHex fromHex fetchStorage _ _ Hmiss).
    cbn [fst]. by rewrite Hfail.
  - erewrite get_local; [done|]. rewrite gets_tree. apply lookup_insert_eq.
Qed.

End Facts.
End TrieExtra.

(** ** async.parallel with two tasks *)

Module AsyncFacts.

(** When one of two tasks fails, the final callback receives the error of
    a task that failed, in whichever order the answers arrive. *)
Lemma parallel_fails {A} (k1 k2 : string) (a b : Callback A) (order : list string) :
  k1 ≠ k2 →
  [k1; k2] ≡ₚ order →
  (∃ err, a = CbErr err) ∨ (∃ err, b = CbErr err) →
  ∃ err, Async.parallel [(k1, a); (k2, b)] order = Some (CbErr err)
         ∧ (a = CbErr err ∨ b = CbErr err).
Proof.
  intros Hne Hperm Hfail. unfold Async.parallel.
  assert ((list_to_map [(k1, a); (k2, b)] : gmap string (Callback A)) !! k1 = Some a) as H1.
  { rewrite !list_to_map_cons. cbn [fst snd]. by rewrite lookup_insert_eq. }
  assert ((list_to_map [(k1, a); (k2, b)] : gmap string (Callback A)) !! k2 = Some b) as H2.
  { rewrite !list_to_map_cons. cbn [fst snd].
    by rewrite lookup_insert_ne, lookup_insert_eq. }
  apply Permutation_length_2_inv in Hperm as [-> | ->];
    cbn [omap list_omap length]; rewrite H1, H2;
    cbn [fmap option_fmap option_map Async.join];
    destruct a as [ea|va], b as [eb|vb]; cbn [Async.join];
    try (eexists; split; [reflexivity|]; by auto).
  all: destruct Hfail as [[err Hfail]|[err Hfail]]; discriminate Hfail.
Qed.

End AsyncFacts.

(** ** VmSubprovider *)

Module VmExtra.
Import Vm VmProps VmObs.

Section Facts.

Context {Buffer BN : Type}.
Variable toHex : Buffer → string.
Variable fromHex : string → Buffer.
Variable bnToHex : BN → string.
Variable emptyBlock : Block (Buffer := Buffer).
Variable currentBlock : gmap string (field (Buffer := Buffer)).

#[local] Abbreviation State := (State (Buffer := Buffer)).
#[local] Abbreviation Results := (Results (Buffer := Buffer) (BN := BN)).
#[local] Abbreviation runVm_body := (runVm_body toHex fromHex emptyBlock currentBlock).
#[local] Abbreviation sendAsync := (sendAsync toHex fromHex emptyBlock currentBlock).
#[local] Abbreviation runTx_done := (runTx_done toHex fromHex bnToHex emptyBlock currentBlock).
#[local] Abbreviation step := (step toHex fromHex bnToHex emptyBlock currentBlock).
#[local] Abbreviation run := (run toHex fromHex bnToHex emptyBlock currentBlock).
#[local] Abbreviation sendAsync_cb := (sendAsync_cb toHex bnToHex).

(** *** The order in which requests pass the gate *)

Lemma step_in_arrival_order (s : State) (i : Input) :
  in_arrival_order s → in_arrival_order (step s i).
Proof.
  intros [Horder Hopen]. destruct i as [payload|payload res]; cbn [Vm.step].
  - destruct (Stoplight.isOpen (_ready s)) eqn:Hgate.
    + rewrite sendAsync_open by done. specialize (Hopen eq_refl).
      destruct (runVm_body_obs toHex fromHex emptyBlock currentBlock
                  {| _ready := _ready s; running := running s;
                     trace := trace s ++ [EvAwait payload] |} payload)
        as (B1 & B2 & B3).
      unfold in_arrival_order. rewrite B1, B2, B3. cbn [Stoplight.stop Stoplight.queue
                                                         Stoplight.isOpen].
      unfold stopped, awaited in *. cbn [trace]. rewrite !omap_app. cbn [omap list_omap].
      cbn [_ready]. rewrite Hopen in Horder |- *. rewrite app_nil_r in Horder.
      rewrite !app_nil_r. split; [by rewrite Horder|done].
    + rewrite sendAsync_closed by done.
      unfold in_arrival_order, stopped, awaited in *.
      cbn [trace _ready Stoplight.queue Stoplight.isOpen]. rewrite !omap_app.
      cbn [omap list_omap]. rewrite app_nil_r. split; [|done].
      by rewrite app_assoc, Horder.
  - unfold Vm.runTx_done. case_bool_decide as Hin; [|done].
    cbn [Stoplight.go].
    destruct (released_obs toHex fromHex emptyBlock currentBlock (Stoplight.queue (_ready s))
                {| _ready := {| Stoplight.isOpen := true; Stoplight.queue := [] |};
                   running := remove_one payload (running s);
                   trace := trace s ++ [EvGo payload] |})
      as (H1 & H2 & H3 & H4).
    unfold in_arrival_order, stopped, awaited in *. cbn [trace _ready] in *.
    rewrite omap_app. rewrite (omap_app _ (trace (foldl _ _ _))).
    rewrite H1, H2, H3. rewrite !omap_app. cbn [omap list_omap Stoplight.queue].
    assert (∀ f : Event (Buffer := Buffer) → option Payload,
              (∀ p a, f (EvReply p a) = None) → (∀ p w, f (EvReplyThrow p w) = None) →
              omap f (reply_events payload (sendAsync_cb payload (runVm_cb res))) = [])
      as Hreply.
    { intros f Hf1 Hf2. destruct (Vm.sendAsync_cb _ _ _ _); cbn; by rewrite ?Hf1, ?Hf2. }
    rewrite !Hreply by done. rewrite !app_nil_r. split; [by rewrite Horder|done].
Qed.

(** X7. Requests enter the virtual machine in the order they were sent:
    at every moment the requests whose function has run past the gate,
    followed by those still queued on it, are the requests sent so far in
    their order (none is lost, none runs twice), and a request never waits
    on an open gate. *)
Theorem requests_pass_in_arrival_order (inputs : list Input) :
  stopped (run inputs) ++ Stoplight.queue (_ready (run inputs)) = awaited (run inputs)
  ∧ (Stoplight.isOpen (_ready (run inputs)) = true
     → Stoplight.queue (_ready (run inputs)) = []).
Proof.
  change (in_arrival_order (run inputs)). unfold Vm.run.
  assert (in_arrival_order (Vm.new (Buffer := Buffer))) as Hnew by done.
  revert Hnew. generalize (Vm.new (Buffer := Buffer)).
  induction inputs as [|i rest IH]; intros s H; [done|].
  cbn [foldl]. by apply IH, step_in_arrival_order.
Qed.

Lemma setup_without_params (payload : Payload) :
  params payload !! 0 = None →
  setup toHex fromHex emptyBlock currentBlock payload = None.
Proof.
  intros H. unfold setup, txParams_of. rewrite H. cbn [mbind option_bind].
  by destruct (field_toString_hex _ _).
Qed.

(** A subprovider whose gate is closed while no invocation is under way
    stays so for ever, and shows no further sign of life. *)
Lemma stuck_for_ever (inputs : list Input) :
  ∀ s : State,
    running s = [] → Stoplight.isOpen (_ready s) = false →
    running (foldl step s inputs) = []
    ∧ Stoplight.isOpen (_ready (foldl step s inputs)) = false
    ∧ List.filter is_progress (trace (foldl step s inputs)) = List.filter is_progress (trace s).
Proof.
  induction inputs as [|i rest IH]; intros s Hidle Hclosed; [done|].
  cbn [foldl].
  assert (running (step s i) = [] ∧ Stoplight.isOpen (_ready (step s i)) = false
          ∧ List.filter is_progress (trace (step s i)) = List.filter is_progress (trace s))
    as (H1 & H2 & H3).
  { destruct i as [payload|payload res]; cbn [Vm.step].
    - rewrite sendAsync_closed by done. cbn [running _ready trace Stoplight.isOpen].
      split_and!; [done..|]. rewrite List.filter_app. cbn. by rewrite app_nil_r.
    - unfold Vm.runTx_done. rewrite Hidle. by rewrite bool_decide_false by apply not_elem_of_nil. }
  destruct (IH (step s i) H1 H2) as (I1 & I2 & I3).
  split_and!; [done..|]. by rewrite I3.
Qed.

(** X9. A request without parameters makes the set-up throw after the gate
    was closed and before the virtual machine is invoked.  On a subprovider
    that was idle, the gate is then never opened again: whatever is sent
    afterwards, no invocation starts and no request is answered. *)
Theorem setup_throw_closes_the_gate (s : State) (payload : Payload) (inputs : list Input) :
  running s = [] →
  Stoplight.isOpen (_ready s) = true →
  params payload !! 0 = None →
  running (foldl step (step s (SendAsync payload)) inputs) = []
  ∧ Stoplight.isOpen (_ready (foldl step (step s (SendAsync payload)) inputs)) = false
  ∧ List.filter is_progress (trace (foldl step (step s (SendAsync payload)) inputs))
    = List.filter is_progress (trace s).
Proof.
  intros Hidle Hopen Hparams.
  assert (step s (SendAsync payload)
          = {| _ready := Stoplight.stop (_ready s); running := [];
               trace := trace s ++ [EvAwait payload; EvStop payload; EvSetupThrow payload] |})
    as Hstep.
  { cbn [Vm.step]. rewrite sendAsync_open by done. unfold Vm.runVm_body.
    rewrite (setup_without_params _ Hparams). cbn [_ready running trace].
    by rewrite Hidle, <-app_assoc. }
  destruct (stuck_for_ever inputs (step s (SendAsync payload))) as (H1 & H2 & H3);
    [by rewrite Hstep..|].
  split_and!; [done..|]. rewrite H3, Hstep. cbn [trace].
  rewrite List.filter_app. cbn. by rewrite app_nil_r.
Qed.

Lemma sends_while_closed (payloads : list Payload) :
  ∀ s : State,
    Stoplight.isOpen (_ready s) = false →
    running (foldl step s (SendAsync <$> payloads)) = running s
    ∧ _ready (foldl step s (SendAsync <$> payloads))
      = {| Stoplight.isOpen := false;
           Stoplight.queue := Stoplight.queue (_ready s) ++ payloads |}
    ∧ stopped (foldl step s (SendAsync <$> payloads)) = stopped s.
Proof.
  induction payloads as [|p rest IH]; intros s Hclosed.
  - cbn. rewrite app_nil_r. destruct (_ready s). cbn in Hclosed. by subst.
  - cbn [fmap list_fmap foldl Vm.step]. rewrite sendAsync_closed by done.
    destruct (IH {| _ready := {| Stoplight.isOpen := false;
                                 Stoplight.queue := Stoplight.queue (_ready s) ++ [p] |};
                    running := running s; trace := trace s ++ [EvAwait p] |} eq_refl)
      as (H1 & H2 & H3).
    rewrite H1, H2, H3. cbn [running _ready Stoplight.queue].
    split_and!; [done|by rewrite <-app_assoc|].
    unfold stopped. cbn [trace]. rewrite omap_app. cbn. by rewrite app_nil_r.
Qed.

(** X20. While the invocation made for the first request of a new
    subprovider is under way, every request sent waits on the gate:
    however many are sent, the first invocation stays the only one and the
    others are queued in the order they came. *)
Theorem requests_wait_for_the_first (first : Payload) (others : list Payload)
    tx block blockNumber :
  setup toHex fromHex emptyBlock currentBlock first = Some (tx, block, blockNumber) →
  running (run (SendAsync first :: (SendAsync <$> others))) = [first]
  ∧ Stoplight.queue (_ready (run (SendAsync first :: (SendAsync <$> others)))) = others
  ∧ stopped (run (SendAsync first :: (SendAsync <$> others))) = [first].
Proof.
  intros Hsetup. unfold Vm.run, Vm.new.
  cbn [foldl Vm.step Stoplight.go Stoplight.new fst].
  rewrite (sendAsync_open _ _ _ _ first) by done.
  rewrite (runVm_body_runs _ _ _ _ _ _ _ _ _ Hsetup).
  cbn [_ready running trace app Stoplight.stop Stoplight.queue].
  match goal with |- context [foldl _ ?s0 _] =>
    destruct (sends_while_closed others s0 eq_refl) as (H1 & H2 & H3) end.
  rewrite H1, H2, H3. by cbn.
Qed.

(** *** Answers *)

(** X10. An engine error whose message begins with neither prefix is
    handed on as an error: [runVm] calls back with it, and [sendAsync]
    calls its own callback with it whatever the method of the request. *)
Theorem other_errors_are_fatal (payload : Payload) (err : Error) (s : State) :
  ¬ has_normal_prefix (message err) →
  runVm_cb (CbErr err) = (CbErr err : Callback Results)
  ∧ sendAsync_cb payload (runVm_cb (CbErr err)) = Calls (CbErr err)
  ∧ (payload ∈ running s →
       last (trace (runTx_done payload (CbErr err) s)) = Some (EvReply payload (CbErr err))).
Proof.
  intros Hother.
  assert (runVm_cb (CbErr err) = (CbErr err : Callback Results)) as Hcb.
  { unfold runVm_cb. destruct (isNormalVmError (message err)) eqn:Hnormal; [|done].
    by apply isNormalVmError_prefix in Hnormal. }
  split_and!; [done|by rewrite Hcb|].
  intros Hin. rewrite runTx_done_running by done. cbn zeta. cbn [trace].
  rewrite Hcb. cbn [Vm.sendAsync_cb reply_events]. apply last_snoc.
Qed.

(** X11. Every response that [sendAsync] hands to its callback answers a
    request of one of the methods the constructor lists, repeats the [id]
    and the [jsonrpc] of the request, and carries a result and no error
    field. *)
Theorem response_matches_request (payload : Payload) (args : Callback Results)
    (response : Response) :
  sendAsync_cb payload args = Calls (CbOk response) →
  method payload ∈ methods
  ∧ resp_id response = id payload
  ∧ resp_jsonrpc response = jsonrpc payload
  ∧ is_Some (resp_result response)
  ∧ resp_error response = None.
Proof.
  unfold Vm.sendAsync_cb. destruct args as [err|results]; [done|].
  case_bool_decide as Hcall.
  - destruct (error results); [|destruct (vm results) as [[[buf|]]|]];
      intros [= <-]; cbn; split_and!; eauto; rewrite Hcall; apply elem_of_cons; by left.
  - case_bool_decide as Hgas; [|done].
    destruct (gasUsed results); intros [= <-]; cbn; split_and!; eauto;
      rewrite Hgas; apply elem_of_cons; right; apply elem_of_cons; by left.
Qed.

(** X12. For a request of any other method the callback is reached only by
    an error that is not a recognized one: after a successful invocation,
    or a recognized error, [sendAsync] never calls back. *)
Theorem other_methods_are_not_answered (payload : Payload) (res : Callback Results) :
  method payload ≠ "eth_call" →
  method payload ≠ "eth_estimateGas" →
  sendAsync_cb payload (runVm_cb res)
  = match res with
    | CbErr err => if isNormalVmError (message err) then Silent else Calls (CbErr err)
    | CbOk _ => Silent
    end.
Proof.
  intros Hcall Hgas. unfold runVm_cb, Vm.sendAsync_cb.
  destruct res as [err|results]; [destruct (isNormalVmError (message err))|];
    try done; by rewrite !bool_decide_false by done.
Qed.

End Facts.

(** *** The account lookup *)

Section FetchFacts.

Context {Buffer : Type}.
Variable toHex : Buffer → string.
Variable createPayload : string → list Param → Payload.
Variable rootProvider_sendAsync : Payload → Callback Response.
Variable arrival : list string → list string.

#[local] Abbreviation _fetchAccount :=
  (_fetchAccount toHex createPayload rootProvider_sendAsync arrival).

(** X13. When both requests are answered, in whichever order the answers
    arrive, [_fetchAccount] hands over an account whose nonce and balance
    are the [result] fields of the two answers, unchanged. *)
Theorem fetchAccount_passes_answers (blockNumber : string) (address : Buffer)
    (nonceAnswer balanceAnswer : Response) :
  rootProvider_sendAsync
    (createPayload "eth_getTransactionCount"
       [PVal (JStr (EthUtil.addHexPrefix (toHex address))); PVal (JStr blockNumber)])
  = CbOk nonceAnswer →
  rootProvider_sendAsync
    (createPayload "eth_getBalance"
       [PVal (JStr (EthUtil.addHexPrefix (toHex address))); PVal (JStr blockNumber)])
  = CbOk balanceAnswer →
  ["nonce"; "balance"] ≡ₚ arrival ["nonce"; "balance"] →
  ∃ account, (_fetchAccount blockNumber address).2 = Some (CbOk account)
             ∧ nonce account = result_of nonceAnswer
             ∧ balance account = result_of balanceAnswer.
Proof.
  intros Hnonce Hbalance Harrival.
  unfold Vm._fetchAccount, _fetchAccountNonce, _fetchAccountBalance, result_cb, _emitPayload.
  cbn [fst snd Async.answers Async.started fmap list_fmap].
  rewrite Hnonce, Hbalance.
  destruct (WalletProps.parallel_both "nonce" "balance" (result_of nonceAnswer)
              (result_of balanceAnswer) _ ltac:(done) Harrival)
    as (results & -> & Hn & Hb).
  eexists. split; [reflexivity|]. cbn [nonce balance]. unfold get_prop.
  by rewrite Hn, Hb.
Qed.

(** X14. When one of the two requests fails, both have been sent all the
    same, and [_fetchAccount] hands over the error of a request that
    failed and no account. *)
Theorem fetchAccount_fails_with_a_request (blockNumber : string) (address : Buffer) :
  (∃ err, (_fetchAccountNonce createPayload rootProvider_sendAsync
             (EthUtil.addHexPrefix (toHex address)) blockNumber).2 = CbErr err)
  ∨ (∃ err, (_fetchAccountBalance createPayload rootProvider_sendAsync
               (EthUtil.addHexPrefix (toHex address)) blockNumber).2 = CbErr err) →
  ["nonce"; "balance"] ≡ₚ arrival ["nonce"; "balance"] →
  (_fetchAccount blockNumber address).1
  = [("eth_getTransactionCount",
      [PVal (JStr (EthUtil.addHexPrefix (toHex address))); PVal (JStr blockNumber)]);
     ("eth_getBalance",
      [PVal (JStr (EthUtil.addHexPrefix (toHex address))); PVal (JStr blockNumber)])]
  ∧ ∃ err, (_fetchAccount blockNumber address).2 = Some (CbErr err)
           ∧ (rootProvider_sendAsync
                (createPayload "eth_getTransactionCount"
                   [PVal (JStr (EthUtil.addHexPrefix (toHex address))); PVal (JStr blockNumber)])
              = CbErr err
              ∨ rootProvider_sendAsync
                  (createPayload "eth_getBalance"
                     [PVal (JStr (EthUtil.addHexPrefix (toHex address))); PVal (JStr blockNumber)])
                = CbErr err).
Proof.
  intros Hfail Harrival. split; [done|].
  unfold Vm._fetchAccount. cbn [fst snd Async.answers Async.started fmap list_fmap].
  destruct (AsyncFacts.parallel_fails "nonce" "balance" _ _ _ ltac:(done) Harrival Hfail)
    as (err & -> & Herr).
  exists err. split; [done|].
  unfold _fetchAccountNonce, _fetchAccountBalance, result_cb, _emitPayload in Herr.
  cbn [fst snd] in Herr.
  destruct Herr as [Herr|Herr]; [left|right];
    by destruct (rootProvider_sendAsync _) as [e|r]; simplify_eq.
Qed.

End FetchFacts.

(** *** The classification of engine errors *)

(** X23. [isNormalVmError] accepts exactly the messages that begin with one
    of the two fixed prefixes; no message begins with both, so that asking
    for one match is asking for a match. *)
Theorem isNormalVmError_exact (message : string) :
  (isNormalVmError message = true ↔ has_normal_prefix message)
  ∧ ¬ (String.prefix NOT_ENOUGH_FUNDS message = true
       ∧ String.prefix WRONG_NONCE message = true).
Proof.
  split; [apply isNormalVmError_prefix|].
  intros [H1 H2]. apply String.prefix_correct in H1, H2.
  by apply (patterns_exclusive message).
Qed.

(** *** On concrete requests *)

Import Examples MoreExamples.

Lemma connection_reset_is_not_normal : ¬ has_normal_prefix (message connection_reset).
Proof. intros H%isNormalVmError_prefix. vm_compute in H. discriminate H. Qed.

Lemma setup_throw_closes_the_gate_witness :
  running (foldl (Vm.step hex_id hex_id bn_hex emptyBlock blockData)
                 (vm_run [SendAsync bare_call]) [SendAsync call1; SendAsync call2]) = [].
Proof.
  apply (setup_throw_closes_the_gate hex_id hex_id bn_hex emptyBlock blockData
           (vm_run []) bare_call [SendAsync call1; SendAsync call2]); reflexivity.
Defined.

Lemma requests_wait_for_the_first_witness :
  running (vm_run (SendAsync call1 :: (SendAsync <$> [call2; call3]))) = [call1].
Proof.
  apply (requests_wait_for_the_first hex_id hex_id bn_hex emptyBlock blockData
           call1 [call2; call3] tx block "0x0a").
  vm_compute. reflexivity.
Defined.

Lemma other_errors_are_fatal_witness :
  Vm.sendAsync_cb hex_id bn_hex estimate1 (runVm_cb (CbErr connection_reset))
  = Calls (CbErr connection_reset).
Proof.
  apply (other_errors_are_fatal hex_id hex_id bn_hex emptyBlock blockData
           estimate1 connection_reset (vm_run []) connection_reset_is_not_normal).
Defined.

Lemma response_matches_request_witness : method call1 ∈ methods.
Proof.
  apply (response_matches_request hex_id bn_hex call1 vm_ok call_response).
  reflexivity.
Defined.

Lemma other_methods_are_not_answered_witness :
  Vm.sendAsync_cb hex_id bn_hex balance1 (runVm_cb vm_ok) = Silent.
Proof.
  apply (other_methods_are_not_answered hex_id bn_hex balance1 vm_ok); discriminate.
Defined.

Lemma fetchAccount_passes_answers_witness :
  ∃ account,
    (Vm._fetchAccount hex_id createPayload funded_network in_order "0x0a" "aa").2
    = Some (CbOk account)
    ∧ nonce account = JStr "0x1" ∧ balance account = JStr "0x2710".
Proof.
  apply (fetchAccount_passes_answers hex_id createPayload funded_network in_order "0x0a" "aa"
           (mkResponse 0 "2.0" (Some (JStr "0x1")) None)
           (mkResponse 0 "2.0" (Some (JStr "0x2710")) None));
    reflexivity.
Defined.

Lemma fetchAccount_fails_with_a_request_witness :
  ∃ err, (Vm._fetchAccount hex_id createPayload down_network in_order "0x0a" "aa").2
         = Some (CbErr err)
         ∧ (down_network (createPayload "eth_getTransactionCount"
                            [PVal (JStr "0xaa"); PVal (JStr "0x0a")]) = CbErr err
            ∨ down_network (createPayload "eth_getBalance"
                              [PVal (JStr "0xaa"); PVal (JStr "0x0a")]) = CbErr err).
Proof.
  apply (fetchAccount_fails_with_a_request hex_id createPayload down_network in_order
           "0x0a" "aa").
  - left. eexists. reflexivity.
  - reflexivity.
Defined.

End VmExtra.

(** ** HookedWalletSubprovider *)

Module WalletExtra.
Import HookedWallet WalletProps.

Section Facts.

Variable opts : Opts.
Variable emitPayload : string → list Param → Callback Response.
Variable arrival : list string → list string.

#[local] Abbreviation fillInTxExtras := (fillInTxExtras emitPayload arrival).
#[local] Abbreviation handleRequest := (handleRequest opts emitPayload arrival).

(** X15. [eth_coinbase] asks for the accounts and nothing else; it answers
    with the first account when there is one and it is not empty, with
    [null] otherwise and never with [undefined], and it hands a failure of
    [getAccounts] to [end]. *)
Theorem coinbase_is_first_account_or_null (payload : Payload) (answer : Callback (list jsval)) :
  method payload = "eth_coinbase" →
  getAccounts opts = Some answer →
  handleRequest payload
  = ([EvGetAccounts],
     match answer with
     | CbErr err => End (CbErr err)
     | CbOk [] => End (CbOk (RVal JNull))
     | CbOk (first :: _) => End (CbOk (RVal (if truthy first then first else JNull)))
     end)
  ∧ (handleRequest payload).2 ≠ End (CbOk (RVal JUndefined)).
Proof.
  intros Hmethod Haccounts.
  assert (handleRequest payload
          = ([EvGetAccounts],
             match answer with
             | CbErr err => End (CbErr err)
             | CbOk [] => End (CbOk (RVal JNull))
             | CbOk (first :: _) => End (CbOk (RVal (if truthy first then first else JNull)))
             end)) as ->.
  { unfold HookedWallet.handleRequest, self_getAccounts, call.
    rewrite Hmethod, Haccounts. rewrite bool_decide_true by done.
    by destruct answer as [err|[|first rest]]. }
  split; [done|]. cbn [snd].
  destruct answer as [err|[|[| |s] rest]]; try done.
  cbn [truthy]. by destruct (negb _).
Qed.

(** X16. A request is passed to [next] exactly when its method is none of
    [eth_coinbase], [eth_accounts] and [eth_sendTransaction], and then no
    collaborator has been called; a request of one of the three is never
    passed on, also when handling it fails. *)
Theorem next_iff_not_handled (payload : Payload) :
  ((handleRequest payload).2 = Next
   ↔ method payload ∉ ["eth_coinbase"; "eth_accounts"; "eth_sendTransaction"])
  ∧ ((handleRequest payload).2 = Next → (handleRequest payload).1 = []).
Proof.
  assert (∀ m : M Result, (finish m).2 ≠ Next) as Hfinish.
  { intros [log [r|err|what|]]; done. }
  unfold HookedWallet.handleRequest.
  case_bool_decide as H1; [|case_bool_decide as H2; [|case_bool_decide as H3]].
  1-3: split; [split|].
  all: try (intros H; by apply Hfinish in H).
  1-3: intros Hnot; exfalso; apply Hnot; rewrite ?H1, ?H2, ?H3;
       rewrite !elem_of_cons; by auto.
  cbn [fst snd]. split; [split; [intros _|done]|done].
  rewrite !not_elem_of_cons. split_and!; [done..|apply not_elem_of_nil].
Qed.

(** X17. When the signer was left out of the options, a transaction that
    is approved and autofilled makes the subprovider throw: the approval
    and the two autofill requests have been made by then, nothing is
    submitted and [end] is not called. *)
Theorem missing_signer_throws (payload : Payload) (fullTxParams : gmap string jsval) :
  method payload = "eth_sendTransaction" →
  signTransaction opts = None →
  self_approveTransaction opts (params payload !! 0) = CbOk true →
  (fillInTxExtras (params payload !! 0)).2 = Done fullTxParams →
  handleRequest payload
  = (EvApprove (params payload !! 0) :: (fillInTxExtras (params payload !! 0)).1,
     Uncaught "TypeError").
Proof.
  intros Hmethod Hsign Happrove Hfill.
  unfold HookedWallet.handleRequest. rewrite Hmethod.
  rewrite !bool_decide_false by done. rewrite bool_decide_true by done.
  unfold call. rewrite Happrove. cbn [bind negb].
  destruct (fillInTxExtras (params payload !! 0)) as [log outcome]. cbn [fst snd] in *.
  subst outcome. cbn [bind]. unfold self_signTransaction. rewrite Hsign.
  unfold throw. cbn [bind finish app]. by rewrite app_nil_r.
Qed.

(** X18. When one of the two autofill requests fails, both have been sent
    all the same, nothing is merged, and autofill fails with the error of
    a request that failed. *)
Theorem fillInTxExtras_fails_with_a_request (txData : gmap string jsval) :
  (∃ err, emitPayload "eth_gasPrice" [] = CbErr err)
  ∨ (∃ err, emitPayload "eth_getTransactionCount"
              [PVal (get_prop txData "from"); PVal (JStr "pending")] = CbErr err) →
  ["gasPrice"; "nonce"] ≡ₚ arrival ["gasPrice"; "nonce"] →
  ∃ err, fillInTxExtras (Some (PObj txData)) = (autofill_requests txData, Failed err)
         ∧ (emitPayload "eth_gasPrice" [] = CbErr err
            ∨ emitPayload "eth_getTransactionCount"
                [PVal (get_prop txData "from"); PVal (JStr "pending")] = CbErr err).
Proof.
  intros Hfail Harrival.
  unfold HookedWallet.fillInTxExtras, self_emitPayload.
  cbn [mbind option_bind own_props Async.answers Async.started fmap list_fmap fst snd].
  destruct (AsyncFacts.parallel_fails "gasPrice" "nonce" _ _ _ ltac:(done) Harrival Hfail)
    as (err & -> & Herr).
  by exists err.
Qed.

(** X19. Autofill leaves a transaction that already supplies [gasPrice],
    [nonce] and [gas] exactly as it is, though it still sends both
    requests; in general the merged transaction has the caller's fields
    and these three, and no other. *)
Theorem fillInTxExtras_keeps_complete_tx (txData : gmap string jsval) (gasPrice nonce : Response) :
  emitPayload "eth_gasPrice" [] = CbOk gasPrice →
  emitPayload "eth_getTransactionCount" [PVal (get_prop txData "from"); PVal (JStr "pending")]
  = CbOk nonce →
  ["gasPrice"; "nonce"] ≡ₚ arrival ["gasPrice"; "nonce"] →
  ∃ fullTxData,
    fillInTxExtras (Some (PObj txData)) = (autofill_requests txData, Done fullTxData)
    ∧ dom fullTxData = dom txData ∪ {["gasPrice"; "nonce"; "gas"]}
    ∧ (is_Some (txData !! "gasPrice") → is_Some (txData !! "nonce") →
       is_Some (txData !! "gas") → fullTxData = txData).
Proof.
  intros Hgas Hnonce Harrival.
  unfold HookedWallet.fillInTxExtras, self_emitPayload.
  cbn [mbind option_bind own_props Async.answers Async.started fmap list_fmap fst snd].
  rewrite Hgas, Hnonce.
  destruct (parallel_both "gasPrice" "nonce" gasPrice nonce _ ltac:(done) Harrival)
    as (result & -> & -> & ->).
  eexists. split; [reflexivity|]. unfold extend. split.
  - rewrite dom_union_L, !dom_insert_L, dom_singleton_L. set_solver.
  - intros Hg Hn Hgas'. apply map_eq. intros k.
    destruct (txData !! k) as [v|] eqn:Hk.
    + by apply lookup_union_Some_l.
    + rewrite lookup_union_r by done.
      destruct (decide (k = "gasPrice")) as [->|?]; [rewrite Hk in Hg; by destruct Hg|].
      destruct (decide (k = "nonce")) as [->|?]; [rewrite Hk in Hn; by destruct Hn|].
      destruct (decide (k = "gas")) as [->|?]; [rewrite Hk in Hgas'; by destruct Hgas'|].
      rewrite !lookup_insert_ne by done. by rewrite lookup_singleton_ne.
Qed.

(** X21. When no approval hook was given, a transaction is approved
    without more ado: the autofill requests are sent right after the
    approval, whatever the transaction. *)
Theorem default_approval_goes_on (payload : Payload) (txData : gmap string jsval) :
  method payload = "eth_sendTransaction" →
  approveTransaction opts = None →
  params payload !! 0 = Some (PObj txData) →
  ∃ rest, (handleRequest payload).1
          = EvApprove (Some (PObj txData)) :: autofill_requests txData ++ rest.
Proof.
  intros Hmethod Happrove Hparams.
  unfold HookedWallet.handleRequest. rewrite Hmethod, Hparams.
  rewrite !bool_decide_false by done. rewrite bool_decide_true by done.
  unfold self_approveTransaction, call. rewrite Happrove. cbn [default bind negb].
  destruct (fillInTxExtras (Some (PObj txData))) as [log outcome] eqn:Hfill.
  assert (log = autofill_requests txData) as ->.
  { unfold HookedWallet.fillInTxExtras in Hfill. cbn [mbind option_bind own_props] in Hfill.
    by injection Hfill as <- _. }
  destruct outcome as [fullTxParams|err|what|]; cbn [bind].
  - destruct (bind (self_signTransaction opts fullTxParams) _) as [log' r].
    destruct r; cbn [finish fst app]; by eexists.
  - cbn [finish fst app]. exists []. by rewrite app_nil_r.
  - cbn [finish fst app]. exists []. by rewrite app_nil_r.
  - cbn [finish fst app]. exists []. by rewrite app_nil_r.
Qed.

(** X22. A send-transaction request without parameters is put to the
    approval all the same; once approved, autofill throws on it before any
    request is sent, and [end] is not called. *)
Theorem missing_params_throw_after_approval (payload : Payload) :
  method payload = "eth_sendTransaction" →
  params payload !! 0 = None →
  self_approveTransaction opts None = CbOk true →
  handleRequest payload = ([EvApprove None], Uncaught "TypeError").
Proof.
  intros Hmethod Hparams Happrove.
  unfold HookedWallet.handleRequest. rewrite Hmethod, Hparams.
  rewrite !bool_decide_false by done. rewrite bool_decide_true by done.
  unfold call. rewrite Happrove. reflexivity.
Qed.

End Facts.

(** *** On concrete requests *)

Import Examples MoreExamples.

Lemma default_approval_goes_on_witness :
  ∃ rest, (HookedWallet.handleRequest opts_default wallet_network in_order sendTransaction1).1
          = EvApprove (Some (PObj txParams)) :: autofill_requests txParams ++ rest.
Proof.
  apply (default_approval_goes_on opts_default wallet_network in_order sendTransaction1 txParams);
    reflexivity.
Defined.

Lemma missing_params_throw_after_approval_witness :
  HookedWallet.handleRequest opts_default wallet_network in_order
    (mkPayload 10 "2.0" "eth_sendTransaction" [])
  = ([EvApprove None], Uncaught "TypeError").
Proof.
  apply (missing_params_throw_after_approval opts_default wallet_network in_order
           (mkPayload 10 "2.0" "eth_sendTransaction" [])); reflexivity.
Defined.

Lemma coinbase_is_first_account_or_null_witness :
  HookedWallet.handleRequest opts_accounts wallet_network in_order coinbase1
  = ([EvGetAccounts], End (CbOk (RVal (JStr "0xaa")))).
Proof.
  apply (coinbase_is_first_account_or_null opts_accounts wallet_network in_order coinbase1
           (CbOk [JStr "0xaa"; JStr "0xcc"])); reflexivity.
Defined.

Lemma missing_signer_throws_witness :
  HookedWallet.handleRequest opts_no_signer wallet_network in_order sendTransaction1
  = (EvApprove (Some (PObj txParams)) :: autofill_requests txParams, Uncaught "TypeError").
Proof.
  apply (missing_signer_throws opts_no_signer wallet_network in_order sendTransaction1
           fullTxParams); vm_compute; reflexivity.
Defined.

Lemma fillInTxExtras_fails_with_a_request_witness :
  ∃ err, HookedWallet.fillInTxExtras no_fee_network in_order (Some (PObj txParams))
         = (autofill_requests txParams, Failed err)
         ∧ (no_fee_network "eth_gasPrice" [] = CbErr err
            ∨ no_fee_network "eth_getTransactionCount"
                [PVal (get_prop txParams "from"); PVal (JStr "pending")] = CbErr err).
Proof.
  apply (fillInTxExtras_fails_with_a_request no_fee_network in_order txParams).
  - left. eexists. reflexivity.
  - reflexivity.
Defined.

Lemma fillInTxExtras_keeps_complete_tx_witness :
  ∃ fullTxData,
    HookedWallet.fillInTxExtras wallet_network in_order (Some (PObj fullTxParams))
    = (autofill_requests fullTxParams, Done fullTxData)
    ∧ dom fullTxData = dom fullTxParams ∪ {["gasPrice"; "nonce"; "gas"]}
    ∧ (is_Some (fullTxParams !! "gasPrice") → is_Some (fullTxParams !! "nonce") →
       is_Some (fullTxParams !! "gas") → fullTxData = fullTxParams).
Proof.
  apply (fillInTxExtras_keeps_complete_tx wallet_network in_order fullTxParams
           (mkResponse 0 "2.0" (Some (JStr "0x4")) None)
           (mkResponse 0 "2.0" (Some (JStr "0x7")) None)); reflexivity.
Defined.

End WalletExtra.
